(** * Screenshot capture tracker: metadata management and status rollup

    A shallow embedding of [scripts/capture_screenshots.js] (class
    [ScreenshotManager] and its command line) and of
    [scripts/puppeteer_capture.js] (class [ScreenshotCapture]: the capture
    loop over an abstract browser, the metadata update and the summary).

    The JavaScript objects become records, the metadata file becomes an entry
    of a finite map from paths to metadata values, [new Date().toISOString()]
    becomes a read of a clock oracle, and every method becomes a computation
    in a state-and-exception monad over the world made of the manager
    instance, the file system and the clock. *)

From stdpp Require Import base strings list gmap pretty.

Local Open Scope string_scope.
Local Open Scope list_scope.
Local Open Scope nat_scope.

(** ** JavaScript values used by the scripts *)

Module Js.

(** Truthiness of an optional string property: [undefined] and the empty
    string are falsy, every other string is truthy. *)
Definition truthy (v : option string) : bool :=
  match v with
  | Some s => bool_decide (s ≠ EmptyString)
  | None => false
  end.

(** [v || d] for an optional string [v] and a string [d]. *)
Definition or (v : option string) (d : string) : string :=
  match v with
  | Some s => if bool_decide (s ≠ EmptyString) then s else d
  | None => d
  end.

(** [`${v}`] for an optional string. *)
Definition template (v : option string) : string :=
  match v with
  | Some s => s
  | None => "undefined"
  end.

(** The one-character string [\n]. *)
Definition newline : string := String (Ascii.ascii_of_nat 10) EmptyString.

(** [lines.join(sep)]. *)
Fixpoint join (sep : string) (lines : list string) : string :=
  match lines with
  | [] => EmptyString
  | [l] => l
  | l :: rest => l +:+ sep +:+ join sep rest
  end.

(** The completion of a method call: a normal return or a thrown [Error]
    with its message. *)
Inductive Completion (A : Type) : Type :=
| Normal (a : A)
| Throw (message : string).
Global Arguments Normal {A} a.
Global Arguments Throw {A} message.

End Js.

Export Js (Completion, Normal, Throw).

(** ** The metadata file, as parsed by [JSON.parse] *)

(** One entry of [metadata.screenshots.list]. *)
Module Screenshot.

Record t : Type := mk {
  id : string;
  description : string;
  page : string;
  auth_required : bool;
  status : option string;
  file_path : option string;
  captured_at : option string;
  error : option string;
  (* action, element, viewport, wait_after: never read nor written here *)
  rest : gmap string string
}.

Definition set_status (v : option string) (s : t) : t :=
  mk (id s) (description s) (page s) (auth_required s) v
     (file_path s) (captured_at s) (error s) (rest s).
Definition set_file_path (v : option string) (s : t) : t :=
  mk (id s) (description s) (page s) (auth_required s) (status s)
     v (captured_at s) (error s) (rest s).
Definition set_captured_at (v : option string) (s : t) : t :=
  mk (id s) (description s) (page s) (auth_required s) (status s)
     (file_path s) v (error s) (rest s).
Definition set_error (v : option string) (s : t) : t :=
  mk (id s) (description s) (page s) (auth_required s) (status s)
     (file_path s) (captured_at s) v (rest s).

End Screenshot.

(** [metadata.screenshots.summary]. *)
Module Summary.
Record t : Type := mk {
  total : nat;
  captured : nat;
  failed : nat;
  skipped : nat
}.
End Summary.

(** [metadata.screenshots]. *)
Module Screenshots.

Record t : Type := mk {
  status : option string;
  output_dir : option string;
  capture_started_at : option string;
  captured_at : option string;
  list : list Screenshot.t;
  summary : option Summary.t
}.

Definition set_status (v : option string) (s : t) : t :=
  mk v (output_dir s) (capture_started_at s) (captured_at s) (list s)
     (summary s).
Definition set_capture_started_at (v : option string) (s : t) : t :=
  mk (status s) (output_dir s) v (captured_at s) (list s) (summary s).
Definition set_captured_at (v : option string) (s : t) : t :=
  mk (status s) (output_dir s) (capture_started_at s) v (list s)
     (summary s).
Definition set_list (v : Datatypes.list Screenshot.t) (s : t) : t :=
  mk (status s) (output_dir s) (capture_started_at s) (captured_at s) v
     (summary s).
Definition set_summary (v : option Summary.t) (s : t) : t :=
  mk (status s) (output_dir s) (capture_started_at s) (captured_at s)
     (list s) v.

End Screenshots.

(** The whole metadata object. *)
Module Metadata.

Record t : Type := mk {
  updated_at : option string;
  screenshots : Screenshots.t;
  (* version, created_at, language, ...: never read nor written here *)
  rest : gmap string string
}.

Definition set_updated_at (v : option string) (m : t) : t :=
  mk v (screenshots m) (rest m).
Definition set_screenshots (v : Screenshots.t) (m : t) : t :=
  mk (updated_at m) v (rest m).

End Metadata.

(** The object returned by [getProgress]. *)
Module Progress.
Record t : Type := mk {
  total : nat;
  captured : nat;
  failed : nat;
  skipped : nat;
  pending : nat
}.
End Progress.

(** ** The world: manager instance, file system, clock *)

(** The fields of a [ScreenshotManager] instance; [metadata] is [null] until
    [load] has run. *)
Module ScreenshotManager.
Record t : Type := mk {
  metadataPath : string;
  metadata : option Metadata.t;
  outputDir : string
}.
End ScreenshotManager.

(** [fs] holds the metadata files (a file stands for the value its JSON text
    parses to).  [clock n] is the ISO string the [n]-th evaluation of
    [new Date().toISOString()] yields and [reads] counts the evaluations made
    so far. *)
Record World : Type := mkWorld {
  this : ScreenshotManager.t;
  fs : gmap string Metadata.t;
  clock : nat → string;
  reads : nat
}.

Definition Eff (A : Type) : Type := World → Completion A * World.

Global Instance Eff_ret : MRet Eff := λ A a w, (Normal a, w).

Global Instance Eff_bind : MBind Eff := λ A B k m w,
  match m w with
  | (Normal a, w') => k a w'
  | (Throw e, w') => (Throw e, w')
  end.

Definition throw {A : Type} (message : string) : Eff A :=
  λ w, (Throw message, w).

(** [new Date().toISOString()]. *)
Definition Date_now : Eff string :=
  λ w, (Normal (clock w (reads w)),
        mkWorld (this w) (fs w) (clock w) (S (reads w))).

Definition getThis : Eff ScreenshotManager.t := λ w, (Normal (this w), w).

Definition setThis (m : ScreenshotManager.t) : Eff unit :=
  λ w, (Normal (), mkWorld m (fs w) (clock w) (reads w)).

(** [fs.existsSync(path)]. *)
Definition existsSync (path : string) : Eff bool :=
  λ w, (Normal (bool_decide (is_Some (fs w !! path))), w).

(** [JSON.parse(fs.readFileSync(path, 'utf8'))]. *)
Definition readJSON (path : string) : Eff Metadata.t :=
  λ w, match fs w !! path with
       | Some md => (Normal md, w)
       | None => (Throw ("ENOENT: no such file or directory, open '"
                         +:+ path +:+ "'"), w)
       end.

(** [fs.writeFileSync(path, JSON.stringify(md, null, 2))]. *)
Definition writeJSON (path : string) (md : Metadata.t) : Eff unit :=
  λ w, (Normal (), mkWorld (this w) (<[path := md]> (fs w)) (clock w) (reads w)).

(** Evaluation of [this.metadata.…]: a [TypeError] when [load] has not run. *)
Definition getMetadata : Eff Metadata.t :=
  m ← getThis;
  match ScreenshotManager.metadata m with
  | Some md => mret md
  | None => throw "TypeError: Cannot read properties of null"
  end.

Definition setMetadata (md : Metadata.t) : Eff unit :=
  m ← getThis;
  setThis (ScreenshotManager.mk (ScreenshotManager.metadataPath m) (Some md)
             (ScreenshotManager.outputDir m)).

(** An assignment to a property of [this.metadata.screenshots]. *)
Definition assignScreenshots (f : Screenshots.t → Screenshots.t) : Eff unit :=
  md ← getMetadata;
  setMetadata (Metadata.set_screenshots (f (Metadata.screenshots md)) md).

(** [this.metadata.screenshots.list]. *)
Definition getList : Eff (list Screenshot.t) :=
  md ← getMetadata;
  mret (Screenshots.list (Metadata.screenshots md)).

(** An assignment to a property of the list entry at index [i]: the entry is
    an object shared with the list, so the list sees the change. *)
Definition assignScreenshot (i : nat) (f : Screenshot.t → Screenshot.t)
  : Eff unit :=
  assignScreenshots (λ s, Screenshots.set_list (alter f i (Screenshots.list s)) s).

(** [list.find(s => s.id === screenshotId)]: the index of the first entry
    with that id together with the entry, or [None] for [undefined]. *)
Definition find_by_id (screenshotId : string) (l : list Screenshot.t)
  : option (nat * Screenshot.t) :=
  list_find (λ s, Screenshot.id s = screenshotId) l.

(** [list.filter(s => s.status === v).length]. *)
Definition count_status (v : string) (l : list Screenshot.t) : nat :=
  length (filter (λ s, Screenshot.status s = Some v) l).

(** The predicate [s => !s.status || s.status === 'pending']. *)
Definition is_pending (s : Screenshot.t) : Prop :=
  Js.truthy (Screenshot.status s) = false ∨ Screenshot.status s = Some "pending".

Global Instance is_pending_dec s : Decision (is_pending s).
Proof. unfold is_pending. apply _. Defined.

(** ** [ScreenshotManager] *)

Definition load : Eff unit :=
  m ← getThis;
  found ← existsSync (ScreenshotManager.metadataPath m);
  if negb found
  then throw ("Metadata file not found: " +:+ ScreenshotManager.metadataPath m)
  else
    md ← readJSON (ScreenshotManager.metadataPath m);
    setThis (ScreenshotManager.mk (ScreenshotManager.metadataPath m) (Some md)
               (Js.or (Screenshots.output_dir (Metadata.screenshots md))
                      "screenshots")).

Definition save : Eff unit :=
  now ← Date_now;
  md ← getMetadata;
  setMetadata (Metadata.set_updated_at (Some now) md);;
  m ← getThis;
  md' ← getMetadata;
  writeJSON (ScreenshotManager.metadataPath m) md'.

Definition getPendingScreenshots : Eff (list Screenshot.t) :=
  l ← getList;
  mret (filter is_pending l).

Definition getAuthRequiredScreenshots : Eff (list Screenshot.t) :=
  l ← getList;
  mret (filter (λ s, Screenshot.auth_required s = true) l).

Definition getPublicScreenshots : Eff (list Screenshot.t) :=
  l ← getList;
  mret (filter (λ s, Screenshot.auth_required s = false) l).

Definition startCapture : Eff unit :=
  assignScreenshots (Screenshots.set_status (Some "capturing"));;
  now ← Date_now;
  assignScreenshots (Screenshots.set_capture_started_at (Some now));;
  save.

Definition markCaptured (screenshotId : string) (filePath : option string)
  : Eff unit :=
  l ← getList;
  match find_by_id screenshotId l with
  | None => throw ("Screenshot not found: " +:+ screenshotId)
  | Some (i, _) =>
      assignScreenshot i (Screenshot.set_status (Some "captured"));;
      now ← Date_now;
      assignScreenshot i (Screenshot.set_captured_at (Some now));;
      m ← getThis;
      assignScreenshot i
        (Screenshot.set_file_path
           (Some (Js.or filePath
                    (ScreenshotManager.outputDir m +:+ "/" +:+ screenshotId
                     +:+ ".png"))));;
      assignScreenshot i (Screenshot.set_error None);;
      save
  end.

Definition markFailed (screenshotId : string) (errorMessage : string)
  : Eff unit :=
  l ← getList;
  match find_by_id screenshotId l with
  | None => throw ("Screenshot not found: " +:+ screenshotId)
  | Some (i, _) =>
      assignScreenshot i (Screenshot.set_status (Some "failed"));;
      assignScreenshot i (Screenshot.set_error (Some errorMessage));;
      save
  end.

Definition markSkipped (screenshotId : string) (reason : string)
  : Eff unit :=
  l ← getList;
  match find_by_id screenshotId l with
  | None => throw ("Screenshot not found: " +:+ screenshotId)
  | Some (i, _) =>
      assignScreenshot i (Screenshot.set_status (Some "skipped"));;
      assignScreenshot i (Screenshot.set_error (Some reason));;
      save
  end.

Definition finishCapture : Eff unit :=
  l ← getList;
  let captured := count_status "captured" l in
  let failed := count_status "failed" l in
  let skipped := count_status "skipped" l in
  let total := length l in
  (if bool_decide (captured = total)
   then assignScreenshots (Screenshots.set_status (Some "captured"))
   else if bool_decide (0 < captured)
   then assignScreenshots (Screenshots.set_status (Some "partial"))
   else assignScreenshots (Screenshots.set_status (Some "failed")));;
  now ← Date_now;
  assignScreenshots (Screenshots.set_captured_at (Some now));;
  assignScreenshots
    (Screenshots.set_summary (Some (Summary.mk total captured failed skipped)));;
  save.

Definition getProgress : Eff Progress.t :=
  l ← getList;
  mret (Progress.mk
          (length l)
          (count_status "captured" l)
          (count_status "failed" l)
          (count_status "skipped" l)
          (length (filter is_pending l))).

(** The lookup [{captured: '[OK]', failed: '[FAIL]', skipped: '[SKIP]',
    pending: '[...]'}[status]] on the object's own properties: [None] is
    [undefined].  (A status that names a property inherited from
    [Object.prototype] is not modelled.) *)
Definition statusIcon (status : string) : option string :=
  if bool_decide (status = "captured") then Some "[OK]"
  else if bool_decide (status = "failed") then Some "[FAIL]"
  else if bool_decide (status = "skipped") then Some "[SKIP]"
  else if bool_decide (status = "pending") then Some "[...]"
  else None.

(** The lines one iteration of the loop of [generateReport] pushes. *)
Definition report_entry (screenshot : Screenshot.t) : list string :=
  let status := Js.or (Screenshot.status screenshot) "pending" in
  [ "### " +:+ Js.template (statusIcon status) +:+ " "
      +:+ Screenshot.id screenshot;
    "- Description: " +:+ Screenshot.description screenshot;
    "- Page: " +:+ Screenshot.page screenshot;
    "- Status: " +:+ status ]
  ++ (if Js.truthy (Screenshot.file_path screenshot)
      then ["- File: " +:+ Js.template (Screenshot.file_path screenshot)]
      else [])
  ++ (if Js.truthy (Screenshot.error screenshot)
      then ["- Error: " +:+ Js.template (Screenshot.error screenshot)]
      else [])
  ++ [EmptyString].

(** The array [lines] as first built by [generateReport]. *)
Definition report_header (progress : Progress.t) (now metadataPath : string)
  : list string :=
  [ "# Screenshot Capture Report";
    EmptyString;
    "Generated: " +:+ now;
    "Metadata: " +:+ metadataPath;
    EmptyString;
    "## Summary";
    EmptyString;
    "- Total: " +:+ pretty (Progress.total progress);
    "- Captured: " +:+ pretty (Progress.captured progress);
    "- Failed: " +:+ pretty (Progress.failed progress);
    "- Skipped: " +:+ pretty (Progress.skipped progress);
    "- Pending: " +:+ pretty (Progress.pending progress);
    EmptyString;
    "## Details";
    EmptyString ].

Global Arguments report_header : simpl never.

(** The array [lines] when [generateReport] reaches its [return]. *)
Definition report_lines : Eff (list string) :=
  progress ← getProgress;
  now ← Date_now;
  m ← getThis;
  l ← getList;
  mret (foldl (λ lines screenshot, lines ++ report_entry screenshot)
          (report_header progress now (ScreenshotManager.metadataPath m)) l).

Definition generateReport : Eff string :=
  lines ← report_lines;
  mret (Js.join Js.newline lines).

(** ** [ScreenshotCapture.updateMetadata] of [puppeteer_capture.js] *)

(** One element of [this.results], as pushed by [capture]. *)
Module Result.
Record t : Type := mk {
  id : string;
  status : string;
  path : option string;
  error : option string;
  reason : option string
}.
End Result.

(** One element of the constant [SCREENSHOTS] (of its fields, only the number
    of elements matters to [updateMetadata]; the descriptions, clips,
    selectors and actions are left out). *)
Module Shot.
Record t : Type := mk {
  id : string;
  url : string;
  auth : bool
}.
End Shot.

Definition SCREENSHOTS : list Shot.t :=
  [ Shot.mk "screenshot_01_homepage" "https://cs.gbase.ai/" false;
    Shot.mk "screenshot_02_top_navigation" "https://cs.gbase.ai/" false;
    Shot.mk "screenshot_03_login_button" "https://cs.gbase.ai/" false;
    Shot.mk "screenshot_04_login_page" "https://cs.gbase.ai/" false;
    Shot.mk "screenshot_05_admin_dashboard" "https://admin.gbase.ai/bots" true;
    Shot.mk "screenshot_06_create_bot_card" "https://admin.gbase.ai/bots" true;
    Shot.mk "screenshot_07_create_bot_modal" "https://admin.gbase.ai/bots" true ].

(** [try { body } catch (error) { handler }]: the effects of [body] up to the
    throw stay. *)
Definition try_catch {A : Type} (body : Eff A) (handler : string → Eff A)
  : Eff A :=
  λ w, match body w with
       | (Normal a, w') => (Normal a, w')
       | (Throw e, w') => handler e w'
       end.

(** The body of the loop [for (const result of this.results)], on the local
    variable [metadata]. *)
Definition apply_result (result : Result.t) (metadata : Metadata.t)
  : Eff Metadata.t :=
  let l := Screenshots.list (Metadata.screenshots metadata) in
  match find_by_id (Result.id result) l with
  | Some (i, _) =>
      now ← Date_now;
      let assign := λ screenshot,
        let s1 := Screenshot.set_status (Some (Result.status result)) screenshot in
        let s2 := if Js.truthy (Result.path result)
                  then Screenshot.set_file_path (Result.path result) s1
                  else s1 in
        let s3 := if Js.truthy (Result.error result)
                  then Screenshot.set_error (Result.error result) s2
                  else s2 in
        Screenshot.set_captured_at (Some now) s3 in
      mret (Metadata.set_screenshots
              (Screenshots.set_list (alter assign i l)
                 (Metadata.screenshots metadata))
              metadata)
  | None => mret metadata
  end.

Fixpoint apply_results (results : list Result.t) (metadata : Metadata.t)
  : Eff Metadata.t :=
  match results with
  | [] => mret metadata
  | result :: results' =>
      metadata' ← apply_result result metadata;
      apply_results results' metadata'
  end.

(** [results.filter(r => r.status === 'captured').length]. *)
Definition count_captured (results : list Result.t) : nat :=
  length (filter (λ r, Result.status r = "captured") results).

(** [metadataPath] is [CONFIG.metadataPath]; the [console.log] calls are
    left out. *)
Definition updateMetadata (metadataPath : string) (results : list Result.t)
  : Eff unit :=
  try_catch
    (found ← existsSync metadataPath;
     if negb found then mret ()
     else
       metadata ← readJSON metadataPath;
       metadata ← apply_results results metadata;
       let captured := count_captured results in
       let metadata :=
         Metadata.set_screenshots
           (Screenshots.set_status
              (Some (if bool_decide (captured = length SCREENSHOTS)
                     then "captured" else "partial"))
              (Metadata.screenshots metadata))
           metadata in
       now ← Date_now;
       let metadata :=
         Metadata.set_screenshots
           (Screenshots.set_captured_at (Some now)
              (Metadata.screenshots metadata))
           metadata in
       now' ← Date_now;
       let metadata := Metadata.set_updated_at (Some now') metadata in
       writeJSON metadataPath metadata)
    (λ _, mret ()).

(** ** Observations on a world *)

(** The session the manager holds ([None] before [load]). *)
Definition session (w : World) : option Metadata.t :=
  ScreenshotManager.metadata (this w).

(** The task list of a metadata value. *)
Definition tasks (md : Metadata.t) : list Screenshot.t :=
  Screenshots.list (Metadata.screenshots md).

(** The rollup status the manager holds. *)
Definition session_status (w : World) : option string :=
  md ← session w; Screenshots.status (Metadata.screenshots md).

(** The rollup status stored in the metadata file at [path]. *)
Definition file_status (path : string) (w : World) : option string :=
  md ← fs w !! path; Screenshots.status (Metadata.screenshots md).

(** The metadata [md] installed in the manager and written to the metadata
    file, after [n] further clock reads. *)
Definition stored (n : nat) (md : Metadata.t) (w : World) : World :=
  mkWorld
    (ScreenshotManager.mk (ScreenshotManager.metadataPath (this w)) (Some md)
       (ScreenshotManager.outputDir (this w)))
    (<[ScreenshotManager.metadataPath (this w) := md]> (fs w))
    (clock w)
    (n + reads w).

(** The metadata [md] with its task list replaced. *)
Definition with_tasks (l : list Screenshot.t) (md : Metadata.t) : Metadata.t :=
  Metadata.set_screenshots (Screenshots.set_list l (Metadata.screenshots md)) md.

(** The entry a successful [markCaptured] leaves. *)
Definition captured_entry (now path : string) (s : Screenshot.t)
  : Screenshot.t :=
  Screenshot.mk (Screenshot.id s) (Screenshot.description s)
    (Screenshot.page s) (Screenshot.auth_required s) (Some "captured")
    (Some path) (Some now) None (Screenshot.rest s).

(** The entry a successful [markFailed] ([status = "failed"]) or
    [markSkipped] ([status = "skipped"]) leaves. *)
Definition refused_entry (status message : string) (s : Screenshot.t)
  : Screenshot.t :=
  Screenshot.mk (Screenshot.id s) (Screenshot.description s)
    (Screenshot.page s) (Screenshot.auth_required s) (Some status)
    (Screenshot.file_path s) (Screenshot.captured_at s) (Some message)
    (Screenshot.rest s).

(** The default artifact path [`${this.outputDir}/${screenshotId}.png`]. *)
Definition default_path (w : World) (screenshotId : string) : string :=
  ScreenshotManager.outputDir (this w) +:+ "/" +:+ screenshotId +:+ ".png".

(** The calls a client makes on a loaded manager. *)
Inductive Call : Type :=
| MarkCaptured (screenshotId : string) (filePath : option string)
| MarkFailed (screenshotId errorMessage : string)
| MarkSkipped (screenshotId reason : string)
| StartCapture
| FinishCapture.

Definition call (c : Call) : Eff unit :=
  match c with
  | MarkCaptured i p => markCaptured i p
  | MarkFailed i e => markFailed i e
  | MarkSkipped i r => markSkipped i r
  | StartCapture => startCapture
  | FinishCapture => finishCapture
  end.

(** The world after the calls [cs], made one after the other by a client
    that catches what they throw. *)
Definition after (cs : list Call) (w : World) : World :=
  foldl (λ w c, (call c w).2) w cs.

(** ** Properties as the specification words them *)

(** The four values of the status enumeration; an absent status stands for
    [pending]. *)
Definition status_in_enum (s : Screenshot.t) : Prop :=
  Screenshot.status s = None ∨ Screenshot.status s = Some "pending" ∨
  Screenshot.status s = Some "captured" ∨ Screenshot.status s = Some "failed" ∨
  Screenshot.status s = Some "skipped".

(** The task invariant of the data model. *)
Definition task_invariant (s : Screenshot.t) : Prop :=
  status_in_enum s ∧
  (is_Some (Screenshot.file_path s) ↔ Screenshot.status s = Some "captured") ∧
  (is_Some (Screenshot.error s) ↔
     Screenshot.status s = Some "failed" ∨ Screenshot.status s = Some "skipped").

(** The task invariant the manager's calls do keep: a captured task has an
    artifact path, but a path may outlive the captured status. *)
Definition task_invariant_kept (s : Screenshot.t) : Prop :=
  status_in_enum s ∧
  (Screenshot.status s = Some "captured" → is_Some (Screenshot.file_path s)) ∧
  (is_Some (Screenshot.error s) ↔
     Screenshot.status s = Some "failed" ∨ Screenshot.status s = Some "skipped").

(** A task as a fresh metadata file has it. *)
Definition fresh (s : Screenshot.t) : Prop :=
  (Screenshot.status s = None ∨ Screenshot.status s = Some "pending") ∧
  Screenshot.file_path s = None ∧ Screenshot.error s = None.

(** The rollup of [finishCapture] as the specification tests it: captured
    iff all tasks are, failed iff none is, partial otherwise. *)
Definition rollup_as_specified (w : World) : Prop :=
  ∀ md w',
    session w = Some md →
    finishCapture w = (Normal (), w') →
    let captured := count_status "captured" (tasks md) in
    let total := length (tasks md) in
    (session_status w' = Some "captured" ↔ captured = total) ∧
    (session_status w' = Some "failed" ↔ captured = 0) ∧
    (session_status w' = Some "partial" ↔ captured ≠ total ∧ captured ≠ 0).

(** The task invariant in every state the calls reach. *)
Definition invariant_as_specified (w : World) : Prop :=
  ∀ cs md, session (after cs w) = Some md → Forall task_invariant (tasks md).

(** [markFailed] as the specification describes it: status, message and a
    timestamp taken at the call. *)
Definition markFailed_as_specified (w : World) : Prop :=
  ∀ md screenshotId message i s w',
    session w = Some md →
    find_by_id screenshotId (tasks md) = Some (i, s) →
    markFailed screenshotId message w = (Normal (), w') →
    ∃ md' s',
      session w' = Some md' ∧ tasks md' !! i = Some s' ∧
      Screenshot.status s' = Some "failed" ∧
      Screenshot.error s' = Some message ∧
      Screenshot.captured_at s' = Some (clock w (reads w)).

(** Two invocations of [generateReport], the second in the world the first
    leaves, return the same completion. *)
Definition report_as_specified (w : World) : Prop :=
  ∀ r1 w1 r2 w2,
    generateReport w = (r1, w1) →
    generateReport w1 = (r2, w2) →
    r1 = r2.

(** The rollup [finishCapture] leaves in the manager of [w] is the rollup
    [updateMetadata] writes to the file at [path] for the batch [results]. *)
Definition rollups_agree (path : string) (results : list Result.t)
  (w w' : World) : Prop :=
  session_status (finishCapture w).2 =
  file_status path (updateMetadata path results w').2.

(** The frame of [markFailed] and [markSkipped]: from [w] to [w'] the task
    at index [i] changed in its status and error message only, the other
    tasks and the other session fields did not change, the session was
    stamped, and the session was written to the metadata file. *)
Definition only_status_and_error (i : nat) (status message : string)
  (w w' : World) : Prop :=
  ∃ md md' s s',
    session w = Some md ∧ session w' = Some md' ∧
    tasks md !! i = Some s ∧ tasks md' !! i = Some s' ∧
    Screenshot.status s' = Some status ∧
    Screenshot.error s' = Some message ∧
    Screenshot.id s' = Screenshot.id s ∧
    Screenshot.description s' = Screenshot.description s ∧
    Screenshot.page s' = Screenshot.page s ∧
    Screenshot.auth_required s' = Screenshot.auth_required s ∧
    Screenshot.file_path s' = Screenshot.file_path s ∧
    Screenshot.captured_at s' = Screenshot.captured_at s ∧
    Screenshot.rest s' = Screenshot.rest s ∧
    length (tasks md') = length (tasks md) ∧
    (∀ j, j ≠ i → tasks md' !! j = tasks md !! j) ∧
    Screenshots.status (Metadata.screenshots md') =
      Screenshots.status (Metadata.screenshots md) ∧
    Screenshots.output_dir (Metadata.screenshots md') =
      Screenshots.output_dir (Metadata.screenshots md) ∧
    Screenshots.capture_started_at (Metadata.screenshots md') =
      Screenshots.capture_started_at (Metadata.screenshots md) ∧
    Screenshots.captured_at (Metadata.screenshots md') =
      Screenshots.captured_at (Metadata.screenshots md) ∧
    Screenshots.summary (Metadata.screenshots md') =
      Screenshots.summary (Metadata.screenshots md) ∧
    Metadata.rest md' = Metadata.rest md ∧
    Metadata.updated_at md' = Some (clock w (reads w)) ∧
    ScreenshotManager.metadataPath (this w') =
      ScreenshotManager.metadataPath (this w) ∧
    ScreenshotManager.outputDir (this w') =
      ScreenshotManager.outputDir (this w) ∧
    fs w' = <[ScreenshotManager.metadataPath (this w) := md']> (fs w).

(** ** Sample sessions *)

Definition entry (screenshotId : string) (status : option string)
  : Screenshot.t :=
  Screenshot.mk screenshotId "Application homepage" "https://example.com/"
    false status None None None ∅.

Definition sample_metadata (l : list Screenshot.t) : Metadata.t :=
  Metadata.mk (Some "2025-01-12T01:00:00Z")
    (Screenshots.mk (Some "placeholder") (Some "screenshots") None None l None)
    ∅.

(** A clock that advances at every read. *)
Definition ticking (n : nat) : string := "2025-01-12T01:00:0" +:+ pretty n +:+ "Z".

(** A clock that stands still. *)
Definition frozen (n : nat) : string := "2025-01-12T01:00:00Z".

(** A manager that has loaded [.manual-meta.json] holding the tasks [l]. *)
Definition sample_world (tick : nat → string) (l : list Screenshot.t) : World :=
  mkWorld
    (ScreenshotManager.mk ".manual-meta.json" (Some (sample_metadata l))
       "screenshots")
    {[ ".manual-meta.json" := sample_metadata l ]}
    tick 0.

(** Three pending tasks. *)
Definition three_pending : list Screenshot.t :=
  [ entry "screenshot_01_homepage" None;
    entry "screenshot_02_login" (Some "pending");
    entry "screenshot_03_dashboard" None ].

(** The seven tasks of [SCREENSHOTS], every one failed, and the batch of
    results that reports them so. *)
Definition all_failed_tasks : list Screenshot.t :=
  (λ d, Screenshot.mk (Shot.id d) EmptyString (Shot.url d) (Shot.auth d) (Some "failed")
          None None (Some "net::ERR_CONNECTION_REFUSED") ∅) <$> SCREENSHOTS.

Definition all_failed_results : list Result.t :=
  (λ d, Result.mk (Shot.id d) "failed" None
          (Some "net::ERR_CONNECTION_REFUSED") None) <$> SCREENSHOTS.

(** ** [ScreenshotCapture.capture], [captureAll] and [printSummary] *)

(** The constant [CONFIG] of [puppeteer_capture.js] (the viewport and the
    wait time matter to the browser only). *)
Module CONFIG.
Record t : Type := mk {
  metadataPath : string;
  outputDir : string;
  authMode : bool
}.
End CONFIG.

(** What the browser does during one call of [capture]:
    [authenticate_throws] is the message of the exception raised inside
    [this.authenticate()] if that call is made and raises one,
    [capture_throws] the message of the exception raised by the navigation,
    the action or the screenshot if one is raised. *)
Module Browser.
Record t : Type := mk {
  authenticate_throws : option string;
  capture_throws : option string
}.
End Browser.

(** The fields of a [ScreenshotCapture] instance the results depend on. *)
Module ScreenshotCapture.
Record t : Type := mk {
  isAuthenticated : bool;
  results : list Result.t
}.

(** [this.results.push(r)]. *)
Definition push (r : Result.t) (c : t) : t :=
  mk (isAuthenticated c) (results c ++ [r]).
End ScreenshotCapture.

(** [capture(screenshot)]; [path_join] is Node's [path.join] and the
    [console.log] calls are left out.  Every exception raised inside the
    [try] block ends in the [catch] clause. *)
Definition capture (cfg : CONFIG.t) (path_join : string → string → string)
  (browser : Browser.t) (screenshot : Shot.t) (c : ScreenshotCapture.t)
  : ScreenshotCapture.t :=
  let id := Shot.id screenshot in
  let failed := λ e, Result.mk id "failed" None (Some e) None in
  let shoot := λ c : ScreenshotCapture.t,
    match Browser.capture_throws browser with
    | Some e => ScreenshotCapture.push (failed e) c
    | None =>
        let screenshotPath := path_join (CONFIG.outputDir cfg) (id +:+ ".png") in
        ScreenshotCapture.push
          (Result.mk id "captured" (Some screenshotPath) None None) c
    end in
  if Shot.auth screenshot && negb (ScreenshotCapture.isAuthenticated c)
  then
    if negb (CONFIG.authMode cfg)
    then ScreenshotCapture.push
           (Result.mk id "skipped" None None (Some "auth required")) c
    else
      match Browser.authenticate_throws browser with
      | Some e => ScreenshotCapture.push (failed e) c
      | None =>
          shoot (ScreenshotCapture.mk true (ScreenshotCapture.results c))
      end
  else shoot c.

(** The loop [for (const screenshot of shots) await this.capture(screenshot)];
    [browser k] is what the browser does during the [k]-th call. *)
Fixpoint capture_each (cfg : CONFIG.t) (path_join : string → string → string)
  (browser : nat → Browser.t) (k : nat) (shots : list Shot.t)
  (c : ScreenshotCapture.t) : ScreenshotCapture.t :=
  match shots with
  | [] => c
  | screenshot :: shots' =>
      capture_each cfg path_join browser (S k) shots'
        (capture cfg path_join (browser k) screenshot c)
  end.

(** [captureAll()], on the instance the constructor makes. *)
Definition captureAll (cfg : CONFIG.t) (path_join : string → string → string)
  (browser : nat → Browser.t) : ScreenshotCapture.t :=
  capture_each cfg path_join browser 0 SCREENSHOTS
    (ScreenshotCapture.mk false []).

(** The three numbers [printSummary] prints: captured, failed, skipped. *)
Definition printSummary (results : list Result.t) : nat * nat * nat :=
  (length (filter (λ r, Result.status r = "captured") results),
   length (filter (λ r, Result.status r = "failed") results),
   length (filter (λ r, Result.status r = "skipped") results)).

(** [main()] of [puppeteer_capture.js] once the browser has started:
    [captureAll], [updateMetadata], [printSummary]. *)
Definition puppeteer_main (cfg : CONFIG.t)
  (path_join : string → string → string) (browser : nat → Browser.t)
  : Eff (nat * nat * nat) :=
  let c := captureAll cfg path_join browser in
  updateMetadata (CONFIG.metadataPath cfg) (ScreenshotCapture.results c);;
  mret (printSummary (ScreenshotCapture.results c)).

(** ** The command line of [capture_screenshots.js] *)

(** What the script writes: [console.log] of a string, [console.log] of the
    progress object, [console.error] of a string. *)
Inductive Output : Type :=
| Log (line : string)
| LogProgress (progress : Progress.t)
| LogError (line : string).

Module Cli.

(** The process: the world and what was written so far. *)
Record State : Type := mkState {
  world : World;
  console : list Output
}.

(** How a piece of the script ends: normally, by an exception, or by
    [process.exit(code)]. *)
Inductive Completion (A : Type) : Type :=
| Done (a : A)
| Thrown (message : string)
| Exited (code : nat).
Global Arguments Done {A} a.
Global Arguments Thrown {A} message.
Global Arguments Exited {A} code.

Definition M (A : Type) : Type := State → Completion A * State.

Global Instance M_ret : MRet M := λ A a st, (Done a, st).

Global Instance M_bind : MBind M := λ A B k m st,
  match m st with
  | (Done a, st') => k a st'
  | (Thrown e, st') => (Thrown e, st')
  | (Exited n, st') => (Exited n, st')
  end.

(** A call of a manager method. *)
Definition lift {A : Type} (m : Eff A) : M A :=
  λ st, match m (world st) with
        | (Normal a, w) => (Done a, mkState w (console st))
        | (Throw e, w) => (Thrown e, mkState w (console st))
        end.

Definition write (o : Output) : M unit :=
  λ st, (Done (), mkState (world st) (console st ++ [o])).

(** [process.exit(code)]. *)
Definition exit {A : Type} (code : nat) : M A := λ st, (Exited code, st).

Definition try_catch {A : Type} (body : M A) (handler : string → M A) : M A :=
  λ st, match body st with
        | (Thrown e, st') => handler e st'
        | r => r
        end.

Fixpoint for_each {A : Type} (l : list A) (body : A → M unit) : M unit :=
  match l with
  | [] => mret ()
  | x :: l' => body x;; for_each l' body
  end.

(** The [default] clause of the [switch]. *)
Definition usage : list string :=
  [ "Screenshot Capture Helper";
    EmptyString;
    "Usage: node capture_screenshots.js <command> [metadata-path]";
    EmptyString;
    "Commands:";
    "  list          - List pending screenshots";
    "  progress      - Show capture progress";
    "  report        - Generate capture report";
    "  start         - Mark capture session as started";
    "  finish        - Finalize capture session";
    "  mark-captured <id>           - Mark screenshot as captured";
    "  mark-failed <id> [message]   - Mark screenshot as failed" ].

(** The [switch (command)] statement, for [args = process.argv.slice(2)]. *)
Definition dispatch (args : list string) : M unit :=
  let command := args !! 0 in
  if bool_decide (command = Some "list") then
    write (Log "Pending screenshots:");;
    pending ← lift getPendingScreenshots;
    for_each pending
      (λ s, write (Log ("  - " +:+ Screenshot.id s +:+ ": "
                        +:+ Screenshot.page s)))
  else if bool_decide (command = Some "progress") then
    progress ← lift getProgress;
    write (Log ("Progress: " +:+ pretty (Progress.captured progress)
                +:+ "/" +:+ pretty (Progress.total progress)
                +:+ " captured"));;
    write (Log ("  Failed: " +:+ pretty (Progress.failed progress)
                +:+ ", Skipped: " +:+ pretty (Progress.skipped progress)
                +:+ ", Pending: " +:+ pretty (Progress.pending progress)))
  else if bool_decide (command = Some "report") then
    report ← lift generateReport;
    write (Log report)
  else if bool_decide (command = Some "start") then
    lift startCapture;;
    write (Log "Capture session started")
  else if bool_decide (command = Some "finish") then
    lift finishCapture;;
    write (Log "Capture session finished");;
    progress ← lift getProgress;
    write (LogProgress progress)
  else if bool_decide (command = Some "mark-captured") then
    let capturedId := args !! 2 in
    if negb (Js.truthy capturedId) then
      write (LogError "Usage: mark-captured <screenshot-id>");;
      exit 1
    else
      lift (markCaptured (Js.template capturedId) None);;
      write (Log ("Marked " +:+ Js.template capturedId +:+ " as captured"))
  else if bool_decide (command = Some "mark-failed") then
    let failedId := args !! 2 in
    let errorMsg := Js.or (args !! 3) "Unknown error" in
    if negb (Js.truthy failedId) then
      write (LogError "Usage: mark-failed <screenshot-id> [error-message]");;
      exit 1
    else
      lift (markFailed (Js.template failedId) errorMsg);;
      write (Log ("Marked " +:+ Js.template failedId +:+ " as failed"))
  else
    for_each usage (λ line, write (Log line)).

(** The body of [if (require.main === module)]: a manager on
    [args[1] || '.manual-meta.json'], then [load] and the [switch] inside
    [try], with the [catch] clause that reports the error and exits. *)
Definition main (args : list string) : M unit :=
  let metadataPath := Js.or (args !! 1) ".manual-meta.json" in
  lift (setThis (ScreenshotManager.mk metadataPath None "screenshots"));;
  try_catch
    (lift load;; dispatch args)
    (λ e, write (LogError ("Error: " +:+ e));; exit 1).

(** The script run in the world [w]. *)
Definition run (args : list string) (w : World) : Completion unit * State :=
  main args (mkState w []).

End Cli.

(** ** Further observations *)

(** The tasks the manager holds (none before [load]). *)
Definition tasks_of (w : World) : list Screenshot.t :=
  from_option tasks [] (session w).

(** What a task is, as opposed to how far its capture got: its id,
    description, page, authentication flag and remaining properties. *)
Definition task_definition (s : Screenshot.t)
  : string * string * string * bool * gmap string string :=
  (Screenshot.id s, Screenshot.description s, Screenshot.page s,
   Screenshot.auth_required s, Screenshot.rest s).

(** The call [c] is a mark operation on [screenshotId]. *)
Definition marks (screenshotId : string) (c : Call) : Prop :=
  match c with
  | MarkCaptured i _ | MarkFailed i _ | MarkSkipped i _ => i = screenshotId
  | StartCapture | FinishCapture => False
  end.

(** The call [c] is [markFailed] or [markSkipped] on [screenshotId]. *)
Definition refuses (screenshotId : string) (c : Call) : Prop :=
  match c with
  | MarkFailed i _ | MarkSkipped i _ => i = screenshotId
  | MarkCaptured _ _ | StartCapture | FinishCapture => False
  end.

(** The manager and the metadata file agree. *)
Definition synced (w : World) : Prop :=
  fs w !! ScreenshotManager.metadataPath (this w) = session w.

(** The tasks in the metadata file at [path] (none when there is no file). *)
Definition file_tasks (path : string) (w : World) : list Screenshot.t :=
  from_option tasks [] (fs w !! path).

(** The result [capture] pushes for [screenshot] when authentication is off
    ([CONFIG.authMode] false) and the manager is not authenticated. *)
Definition unauthenticated_result (cfg : CONFIG.t)
  (path_join : string → string → string) (browser : Browser.t)
  (screenshot : Shot.t) : Result.t :=
  if Shot.auth screenshot
  then Result.mk (Shot.id screenshot) "skipped" None None (Some "auth required")
  else match Browser.capture_throws browser with
       | Some e => Result.mk (Shot.id screenshot) "failed" None (Some e) None
       | None =>
           Result.mk (Shot.id screenshot) "captured"
             (Some (path_join (CONFIG.outputDir cfg)
                      (Shot.id screenshot +:+ ".png")))
             None None
       end.

(** The shape of every result [capture] pushes: one of the three statuses,
    with the path, the error or the reason that goes with it and nothing
    else. *)
Definition result_well_formed (r : Result.t) : Prop :=
  (Result.status r = "captured" ∧ is_Some (Result.path r) ∧
   Result.error r = None ∧ Result.reason r = None) ∨
  (Result.status r = "failed" ∧ Result.path r = None ∧
   is_Some (Result.error r) ∧ Result.reason r = None) ∨
  (Result.status r = "skipped" ∧ Result.path r = None ∧
   Result.error r = None ∧ Result.reason r = Some "auth required").

(** The entry the loop of [updateMetadata] leaves for the result [r] when
    [r] names the task [s] and the clock reads [now]. *)
Definition updated_entry (now : string) (r : Result.t) (s : Screenshot.t)
  : Screenshot.t :=
  Screenshot.mk (Screenshot.id s) (Screenshot.description s)
    (Screenshot.page s) (Screenshot.auth_required s)
    (Some (Result.status r))
    (if Js.truthy (Result.path r) then Result.path r
     else Screenshot.file_path s)
    (Some now)
    (if Js.truthy (Result.error r) then Result.error r
     else Screenshot.error s)
    (Screenshot.rest s).

(** What [updateMetadata] may do to a task: it keeps the task's definition
    and never removes an error message or an artifact path. *)
Definition only_grows (s s' : Screenshot.t) : Prop :=
  task_definition s' = task_definition s ∧
  (is_Some (Screenshot.error s) → is_Some (Screenshot.error s')) ∧
  (is_Some (Screenshot.file_path s) → is_Some (Screenshot.file_path s')).

(** The browser lets every screenshot of [shots] through: from call [k] on,
    with the instance authenticated or not as [authenticated] says, no
    navigation, action or screenshot raises an exception, and the
    authentication that a screenshot asks for is allowed ([authMode]) and
    raises none. *)
Fixpoint lets_through (authMode : bool) (browser : nat → Browser.t) (k : nat)
  (shots : list Shot.t) (authenticated : bool) : Prop :=
  match shots with
  | [] => True
  | screenshot :: shots' =>
      Browser.capture_throws (browser k) = None ∧
      (Shot.auth screenshot && negb authenticated = true →
       authMode = true ∧ Browser.authenticate_throws (browser k) = None) ∧
      lets_through authMode browser (S k) shots'
        (authenticated || Shot.auth screenshot)
  end.

(** The path of the metadata file the command line works on:
    [args[1] || '.manual-meta.json']. *)
Definition cli_path (args : list string) : string :=
  Js.or (args !! 1) ".manual-meta.json".

(** The world once the command line has made its manager. *)
Definition cli_manager (args : list string) (w : World) : World :=
  mkWorld (ScreenshotManager.mk (cli_path args) None "screenshots")
    (fs w) (clock w) (reads w).

(** The world once that manager has loaded the metadata [md]. *)
Definition cli_loaded (args : list string) (md : Metadata.t) (w : World)
  : World :=
  mkWorld
    (ScreenshotManager.mk (cli_path args) (Some md)
       (Js.or (Screenshots.output_dir (Metadata.screenshots md))
          "screenshots"))
    (fs w) (clock w) (reads w).

(** The command [args[0]] is one of the two that mark a task. *)
Definition marking_command (args : list string) : Prop :=
  args !! 0 = Some "mark-captured" ∨ args !! 0 = Some "mark-failed".

(** The command [args[0]] is one of the four that write the metadata. *)
Definition writing_command (args : list string) : Prop :=
  args !! 0 = Some "start" ∨ args !! 0 = Some "finish" ∨
  marking_command args.

(** What the command line may do to a task: keep its definition, and keep
    its status or make it [captured] or [failed]. *)
Definition cli_step (s s' : Screenshot.t) : Prop :=
  task_definition s' = task_definition s ∧
  (Screenshot.status s' = Screenshot.status s ∨
   Screenshot.status s' = Some "captured" ∨
   Screenshot.status s' = Some "failed").

(** ** The methods on a loaded manager *)

Ltac eff_unfold :=
  unfold markCaptured, markFailed, markSkipped, finishCapture, startCapture,
    getProgress, report_lines, generateReport, getPendingScreenshots, save,
    assignScreenshot, assignScreenshots, getList, setMetadata, getMetadata,
    writeJSON, readJSON, existsSync, setThis, getThis, Date_now, throw,
    mbind, Eff_bind, mret, Eff_ret.

Ltac loaded w H :=
  let m := fresh "m" in
  let p := fresh "path" in
  let o := fresh "dir" in
  destruct w as [[p m o] ? ? ?]; unfold session in H; simpl in H; subst m.

Lemma alter_found {A : Type} (f : A → A) (l : list A) (i : nat) (x : A) :
  l !! i = Some x → alter f i l = <[i := f x]> l.
Proof.
  revert i. induction l as [|y l IH]; intros [|i] Hi; simplify_eq/=; [done|].
  f_equal. by apply IH.
Qed.

Lemma find_by_id_lookup screenshotId l i s :
  find_by_id screenshotId l = Some (i, s) →
  l !! i = Some s ∧ Screenshot.id s = screenshotId.
Proof. unfold find_by_id. by intros (? & ? & _)%list_find_Some. Qed.

Lemma find_by_id_None screenshotId l :
  find_by_id screenshotId l = None ↔ screenshotId ∉ Screenshot.id <$> l.
Proof.
  unfold find_by_id. rewrite list_find_None, Forall_forall, list_elem_of_fmap.
  split.
  - intros Hnone (x & -> & Hx). by apply (Hnone x).
  - intros Hnone x Hx Hid. apply Hnone. eauto.
Qed.

Lemma find_by_id_is_Some screenshotId l :
  screenshotId ∈ Screenshot.id <$> l →
  ∃ i s, find_by_id screenshotId l = Some (i, s).
Proof.
  intros Hin. destruct (find_by_id screenshotId l) as [[i s]|] eqn:Hf; [eauto|].
  by apply find_by_id_None in Hf.
Qed.

(** Replacing the found entry by one with the same id does not move it. *)
Lemma find_by_id_insert screenshotId l i s s' :
  find_by_id screenshotId l = Some (i, s) →
  Screenshot.id s' = screenshotId →
  find_by_id screenshotId (<[i := s']> l) = Some (i, s').
Proof.
  unfold find_by_id. intros Hf Hid. apply list_find_insert_Some.
  apply list_find_Some in Hf as (Hi & _ & Hleast).
  right; left. split_and!; eauto using lookup_lt_Some.
Qed.

Lemma save_loaded w md :
  session w = Some md →
  save w = (Normal (),
            stored 1 (Metadata.set_updated_at (Some (clock w (reads w))) md) w).
Proof. intros H. loaded w H. reflexivity. Qed.

(** [load] installs the content of the metadata file, or throws when there
    is no such file. *)
Lemma load_file w :
  match fs w !! ScreenshotManager.metadataPath (this w) with
  | Some md =>
      ∃ w', load w = (Normal (), w') ∧ session w' = Some md ∧
            fs w' = fs w ∧
            ScreenshotManager.outputDir (this w') =
              Js.or (Screenshots.output_dir (Metadata.screenshots md))
                "screenshots"
  | None =>
      load w = (Throw ("Metadata file not found: "
                       +:+ ScreenshotManager.metadataPath (this w)), w)
  end.
Proof.
  destruct w as [[path m dir] files tick n]. simpl.
  destruct (files !! path) as [md|] eqn:Hfile.
  - eexists. unfold load, mbind, Eff_bind, getThis, existsSync, readJSON.
    simpl. rewrite Hfile. rewrite bool_decide_eq_true_2 by eauto. simpl.
    rewrite Hfile. by split_and!.
  - unfold load, mbind, Eff_bind, getThis, existsSync. simpl. rewrite Hfile.
    rewrite bool_decide_eq_false_2 by (by intros [? ?]). reflexivity.
Qed.

Lemma markCaptured_found w md screenshotId filePath i s :
  session w = Some md →
  find_by_id screenshotId (tasks md) = Some (i, s) →
  markCaptured screenshotId filePath w =
    (Normal (),
     stored 2
       (Metadata.set_updated_at (Some (clock w (S (reads w))))
          (with_tasks
             (<[i := captured_entry (clock w (reads w))
                       (Js.or filePath (default_path w screenshotId)) s]>
                (tasks md))
             md))
       w).
Proof.
  intros H Hf. loaded w H. eff_unfold. simpl. fold (tasks md). rewrite Hf.
  simpl. rewrite !list_alter_alter_eq.
  apply find_by_id_lookup in Hf as [Hi _].
  by rewrite (alter_found _ _ _ _ Hi).
Qed.

Lemma mark_refused_found status w md screenshotId message i s :
  session w = Some md →
  find_by_id screenshotId (tasks md) = Some (i, s) →
  let w' :=
    stored 1
      (Metadata.set_updated_at (Some (clock w (reads w)))
         (with_tasks (<[i := refused_entry status message s]> (tasks md)) md))
      w in
  (status = "failed" → markFailed screenshotId message w = (Normal (), w')) ∧
  (status = "skipped" → markSkipped screenshotId message w = (Normal (), w')).
Proof.
  intros H Hf. loaded w H.
  split; intros ->; eff_unfold; simpl; fold (tasks md); rewrite Hf; simpl;
    rewrite !list_alter_alter_eq;
    apply find_by_id_lookup in Hf as [Hi _];
    by rewrite (alter_found _ _ _ _ Hi).
Qed.

Lemma mark_missing w md screenshotId :
  session w = Some md →
  find_by_id screenshotId (tasks md) = None →
  let thrown := (Throw ("Screenshot not found: " +:+ screenshotId), w) in
  (∀ filePath, markCaptured screenshotId filePath w = thrown) ∧
  (∀ message, markFailed screenshotId message w = thrown) ∧
  (∀ reason, markSkipped screenshotId reason w = thrown).
Proof.
  intros H Hf. loaded w H.
  split_and!; intros ?; eff_unfold; simpl; fold (tasks md); by rewrite Hf.
Qed.

(** The rollup [finishCapture] writes, as a function of the task list. *)
Lemma finishCapture_loaded w md :
  session w = Some md →
  let l := tasks md in
  let captured := count_status "captured" l in
  let rollup :=
    if bool_decide (captured = length l) then "captured"
    else if bool_decide (0 < captured) then "partial" else "failed" in
  finishCapture w =
    (Normal (),
     stored 2
       (Metadata.mk (Some (clock w (S (reads w))))
          (Screenshots.mk (Some rollup)
             (Screenshots.output_dir (Metadata.screenshots md))
             (Screenshots.capture_started_at (Metadata.screenshots md))
             (Some (clock w (reads w)))
             l
             (Some (Summary.mk (length l) captured (count_status "failed" l)
                      (count_status "skipped" l))))
          (Metadata.rest md))
       w).
Proof.
  intros H. loaded w H. eff_unfold. simpl. fold (tasks md).
  repeat case_bool_decide; reflexivity.
Qed.

Lemma getProgress_loaded w md :
  session w = Some md →
  let l := tasks md in
  getProgress w =
    (Normal (Progress.mk (length l) (count_status "captured" l)
               (count_status "failed" l) (count_status "skipped" l)
               (length (filter is_pending l))),
     w).
Proof. intros H. loaded w H. reflexivity. Qed.

Lemma report_loop (h : list string) (l : list Screenshot.t) :
  foldl (λ lines screenshot, lines ++ report_entry screenshot) h l =
  h ++ mjoin (report_entry <$> l).
Proof.
  revert h. induction l as [|s l IH]; intros h; simpl.
  - by rewrite app_nil_r.
  - by rewrite IH, <- app_assoc.
Qed.

Lemma report_lines_loaded w md :
  session w = Some md →
  ∃ progress,
    getProgress w = (Normal progress, w) ∧
    report_lines w =
      (Normal (report_header progress (clock w (reads w))
                 (ScreenshotManager.metadataPath (this w))
               ++ mjoin (report_entry <$> tasks md)),
       mkWorld (this w) (fs w) (clock w) (S (reads w))).
Proof.
  intros H. eexists. split; [by apply getProgress_loaded|].
  loaded w H. eff_unfold. simpl. fold (tasks md). by rewrite report_loop.
Qed.

(** Before [load] every method that reads [this.metadata] throws and changes
    nothing. *)
Lemma call_unloaded c w :
  session w = None →
  ∃ e, call c w = (Throw e, w).
Proof.
  intros H. destruct w as [[path m dir] ? ? ?]. unfold session in H.
  simpl in H. subst m. destruct c; eexists; reflexivity.
Qed.

(** Each call on a loaded manager leaves it loaded, with a list of the same
    length. *)
Lemma call_loaded c w md :
  session w = Some md →
  ∃ md', session (call c w).2 = Some md' ∧
         length (tasks md') = length (tasks md).
Proof.
  intros H. destruct c as [i p|i e|i r| |]; simpl.
  - destruct (find_by_id i (tasks md)) as [[k s]|] eqn:Hf.
    + rewrite (markCaptured_found _ _ _ _ _ _ H Hf). eexists. split; [done|].
      unfold tasks at 1. simpl. by rewrite length_insert.
    + destruct (mark_missing _ _ _ H Hf) as (-> & _). eauto.
  - destruct (find_by_id i (tasks md)) as [[k s]|] eqn:Hf.
    + destruct (mark_refused_found "failed" _ _ _ e _ _ H Hf) as [Hm _].
      rewrite (Hm eq_refl).
      eexists. split; [done|]. unfold tasks at 1. simpl.
      by rewrite length_insert.
    + destruct (mark_missing _ _ _ H Hf) as (_ & -> & _). eauto.
  - destruct (find_by_id i (tasks md)) as [[k s]|] eqn:Hf.
    + destruct (mark_refused_found "skipped" _ _ _ r _ _ H Hf) as [_ Hm].
      rewrite (Hm eq_refl).
      eexists. split; [done|]. unfold tasks at 1. simpl.
      by rewrite length_insert.
    + destruct (mark_missing _ _ _ H Hf) as (_ & _ & ->). eauto.
  - loaded w H. eexists. split; reflexivity.
  - rewrite (finishCapture_loaded _ _ H). eexists. split; reflexivity.
Qed.

(** ** Counting tasks by status *)

Lemma count_status_le v l : count_status v l ≤ length l.
Proof. apply length_filter. Qed.

Lemma count_status_cons v s l :
  count_status v (s :: l) =
  (if decide (Screenshot.status s = Some v) then 1 else 0) + count_status v l.
Proof. unfold count_status. rewrite filter_cons. by case_decide. Qed.

Lemma pending_cons s l :
  length (filter is_pending (s :: l)) =
  (if decide (is_pending s) then 1 else 0) + length (filter is_pending l).
Proof. rewrite filter_cons. by case_decide. Qed.

(** The four counters of [getProgress] never count a task twice. *)
Lemma counters_disjoint s :
  (if decide (Screenshot.status s = Some "captured") then 1 else 0) +
  (if decide (Screenshot.status s = Some "failed") then 1 else 0) +
  (if decide (Screenshot.status s = Some "skipped") then 1 else 0) +
  (if decide (is_pending s) then 1 else 0) ≤ 1.
Proof.
  repeat case_decide; try lia; exfalso; unfold is_pending in *;
    try congruence;
    match goal with
    | Hp : _ ∨ _, H : Screenshot.status s = Some _ |- _ =>
        rewrite H in Hp; destruct Hp as [Hp|Hp];
        [by vm_compute in Hp | discriminate]
    end.
Qed.

(** A task whose status is in the enumeration is counted exactly once. *)
Lemma counters_cover s :
  status_in_enum s →
  (if decide (Screenshot.status s = Some "captured") then 1 else 0) +
  (if decide (Screenshot.status s = Some "failed") then 1 else 0) +
  (if decide (Screenshot.status s = Some "skipped") then 1 else 0) +
  (if decide (is_pending s) then 1 else 0) = 1.
Proof.
  intros Hs. pose proof (counters_disjoint s).
  repeat case_decide; try lia; exfalso.
  unfold is_pending, status_in_enum in *.
  destruct Hs as [Hs|[Hs|[Hs|[Hs|Hs]]]]; try done;
    match goal with Hp : ¬ (_ ∨ _) |- _ => apply Hp end;
    rewrite Hs; auto.
Qed.

Lemma counters_le l :
  count_status "captured" l + count_status "failed" l +
  count_status "skipped" l + length (filter is_pending l) ≤ length l.
Proof.
  induction l as [|s l IH]; [done|].
  rewrite !count_status_cons, pending_cons. simpl.
  pose proof (counters_disjoint s). lia.
Qed.

Lemma counters_eq l :
  Forall status_in_enum l →
  count_status "captured" l + count_status "failed" l +
  count_status "skipped" l + length (filter is_pending l) = length l.
Proof.
  induction 1 as [|s l Hs _ IH]; [done|].
  rewrite !count_status_cons, pending_cons. simpl.
  pose proof (counters_cover s Hs). lia.
Qed.

(** ** The rollup of [finishCapture] *)

(** C1 (as amended).  On a loaded manager [finishCapture] returns normally;
    the session status it leaves is [captured] iff the number of captured
    tasks equals the number of tasks, [failed] iff no task is captured and
    there is at least one task, and [partial] iff some but not all tasks are
    captured.  It stamps the session, leaves the tasks as they were, records
    the summary [{total, captured, failed, skipped}] counted from the task
    statuses (the three counts together never exceed the total), and writes
    the session to the metadata file. *)
Theorem finishCapture_rollup w md :
  session w = Some md →
  let l := tasks md in
  let captured := count_status "captured" l in
  let failed := count_status "failed" l in
  let skipped := count_status "skipped" l in
  let total := length l in
  ∃ w' md',
    finishCapture w = (Normal (), w') ∧
    session w' = Some md' ∧
    fs w' !! ScreenshotManager.metadataPath (this w) = Some md' ∧
    tasks md' = l ∧
    (session_status w' = Some "captured" ↔ captured = total) ∧
    (session_status w' = Some "failed" ↔ captured = 0 ∧ total ≠ 0) ∧
    (session_status w' = Some "partial" ↔ 0 < captured < total) ∧
    Screenshots.captured_at (Metadata.screenshots md') =
      Some (clock w (reads w)) ∧
    Screenshots.summary (Metadata.screenshots md') =
      Some (Summary.mk total captured failed skipped) ∧
    captured + failed + skipped ≤ total.
Proof.
  intros H l captured failed skipped total.
  pose proof (finishCapture_loaded w md H) as Hrun. simpl in Hrun.
  fold l captured failed skipped total in Hrun.
  assert (captured ≤ total) by apply count_status_le.
  pose proof (counters_le l).
  do 2 eexists. split; [exact Hrun|].
  unfold session_status, session, stored. simpl.
  rewrite lookup_insert_eq.
  split_and!; try done; try (subst captured failed skipped total; lia);
    repeat case_bool_decide; split; intros; simplify_eq; try done; lia.
Qed.

Lemma finishCapture_rollup_witness :
  ∃ w' md',
    finishCapture (sample_world ticking
                     [entry "a" (Some "captured"); entry "b" (Some "failed");
                      entry "c" None]) = (Normal (), w') ∧
    session w' = Some md' ∧
    session_status w' = Some "partial" ∧
    Screenshots.summary (Metadata.screenshots md') = Some (Summary.mk 3 1 1 0).
Proof.
  destruct (finishCapture_rollup
              (sample_world ticking
                 [entry "a" (Some "captured"); entry "b" (Some "failed");
                  entry "c" None])
              _ eq_refl)
    as (w' & md' & Hrun & Hs & _ & _ & _ & _ & Hp & _ & Hsum & _).
  exists w', md'. split_and!; [exact Hrun|exact Hs| |exact Hsum].
  apply Hp. vm_compute. lia.
Defined.

(** C1, the claim as worded, fails on the session without tasks: no task is
    captured, yet the status [finishCapture] leaves is [captured], not
    [failed]. *)
Lemma rollup_as_specified_empty : ¬ rollup_as_specified (sample_world ticking []).
Proof.
  intros Hspec.
  destruct (Hspec _ _ eq_refl
              (finishCapture_loaded (sample_world ticking [])
                 (sample_metadata []) eq_refl))
    as (_ & [_ Hfailed] & _).
  specialize (Hfailed eq_refl). discriminate Hfailed.
Qed.

(** C9.  On a session without tasks [finishCapture] sets the session status
    to [captured] and records the summary
    [{total: 0, captured: 0, failed: 0, skipped: 0}]. *)
Theorem finishCapture_empty w md :
  session w = Some md →
  tasks md = [] →
  ∃ w' md',
    finishCapture w = (Normal (), w') ∧
    session w' = Some md' ∧
    Screenshots.status (Metadata.screenshots md') = Some "captured" ∧
    Screenshots.summary (Metadata.screenshots md') = Some (Summary.mk 0 0 0 0).
Proof.
  intros H Hl. pose proof (finishCapture_loaded w md H) as Hrun.
  simpl in Hrun. rewrite Hl in Hrun. do 2 eexists.
  split; [exact Hrun|]. by split_and!.
Qed.

Lemma finishCapture_empty_witness :
  ∃ w' md',
    finishCapture (sample_world ticking []) = (Normal (), w') ∧
    session w' = Some md' ∧
    Screenshots.status (Metadata.screenshots md') = Some "captured" ∧
    Screenshots.summary (Metadata.screenshots md') = Some (Summary.mk 0 0 0 0).
Proof.
  apply (finishCapture_empty (sample_world ticking []) (sample_metadata []));
    reflexivity.
Defined.

(** ** Progress counts *)

(** C6.  On a session whose task statuses are in the enumeration (absent
    standing for pending) [getProgress] returns, without changing anything,
    counts with [total = captured + failed + skipped + pending], each count
    being the number of tasks of that status and [total] the number of
    tasks. *)
Theorem getProgress_total w md :
  session w = Some md →
  Forall status_in_enum (tasks md) →
  ∃ p,
    getProgress w = (Normal p, w) ∧
    Progress.total p = length (tasks md) ∧
    Progress.captured p = count_status "captured" (tasks md) ∧
    Progress.failed p = count_status "failed" (tasks md) ∧
    Progress.skipped p = count_status "skipped" (tasks md) ∧
    Progress.pending p = length (filter is_pending (tasks md)) ∧
    Progress.total p =
      Progress.captured p + Progress.failed p + Progress.skipped p +
      Progress.pending p.
Proof.
  intros H Hl. eexists. split; [by apply getProgress_loaded|].
  simpl. split_and!; try done. by rewrite counters_eq.
Qed.

Lemma getProgress_total_witness :
  ∃ p,
    getProgress (sample_world ticking
                   [entry "a" (Some "captured"); entry "b" (Some "failed");
                    entry "c" None; entry "d" (Some "skipped");
                    entry "e" (Some "pending")]) =
      (Normal p,
       sample_world ticking
         [entry "a" (Some "captured"); entry "b" (Some "failed");
          entry "c" None; entry "d" (Some "skipped");
          entry "e" (Some "pending")]) ∧
    Progress.total p = 5 ∧ Progress.captured p = 1 ∧ Progress.failed p = 1 ∧
    Progress.skipped p = 1 ∧ Progress.pending p = 2 ∧
    Progress.total p =
      Progress.captured p + Progress.failed p + Progress.skipped p +
      Progress.pending p.
Proof.
  apply (getProgress_total
           (sample_world ticking
              [entry "a" (Some "captured"); entry "b" (Some "failed");
               entry "c" None; entry "d" (Some "skipped");
               entry "e" (Some "pending")])
           _ eq_refl).
  repeat (apply Forall_cons_2; [unfold status_in_enum; simpl; auto 10|]).
  apply Forall_nil_2.
Defined.

(** ** The task invariant *)

Lemma fresh_invariant s : fresh s → task_invariant s.
Proof.
  unfold fresh, task_invariant, status_in_enum.
  intros ([Hs|Hs] & Hp & He); rewrite Hs, Hp, He;
    (split_and!; [auto| |]; split; intros H;
     try (by destruct H); by repeat destruct H as [H|H]).
Qed.

Lemma invariant_weaken s : task_invariant s → task_invariant_kept s.
Proof. intros (? & [_ ?] & ?). by split_and!. Qed.

Lemma captured_entry_kept now path s :
  task_invariant_kept (captured_entry now path s).
Proof.
  unfold task_invariant_kept, status_in_enum. simpl. split_and!; auto.
  split; [by intros [? ?] | by intros [?|?]].
Qed.

Lemma refused_entry_kept status message s :
  status = "failed" ∨ status = "skipped" →
  task_invariant_kept (refused_entry status message s).
Proof.
  unfold task_invariant_kept, status_in_enum. simpl.
  intros [-> | ->]; (split_and!; [auto 10|done|]); split; eauto.
Qed.

(** Every call keeps the invariant [task_invariant_kept] of all tasks. *)
Lemma call_keeps_invariant c w md :
  session w = Some md →
  Forall task_invariant_kept (tasks md) →
  ∃ md', session (call c w).2 = Some md' ∧
         Forall task_invariant_kept (tasks md').
Proof.
  intros H Hinv. destruct c as [i p|i e|i r| |]; simpl.
  - destruct (find_by_id i (tasks md)) as [[k s]|] eqn:Hf.
    + rewrite (markCaptured_found _ _ _ _ _ _ H Hf). eexists. split; [done|].
      unfold tasks at 1. simpl.
      apply Forall_insert; auto using captured_entry_kept.
    + destruct (mark_missing _ _ _ H Hf) as (-> & _). eauto.
  - destruct (find_by_id i (tasks md)) as [[k s]|] eqn:Hf.
    + destruct (mark_refused_found "failed" _ _ _ e _ _ H Hf) as [Hm _].
      rewrite (Hm eq_refl). eexists. split; [done|].
      unfold tasks at 1. simpl.
      apply Forall_insert; auto using refused_entry_kept.
    + destruct (mark_missing _ _ _ H Hf) as (_ & -> & _). eauto.
  - destruct (find_by_id i (tasks md)) as [[k s]|] eqn:Hf.
    + destruct (mark_refused_found "skipped" _ _ _ r _ _ H Hf) as [_ Hm].
      rewrite (Hm eq_refl). eexists. split; [done|].
      unfold tasks at 1. simpl.
      apply Forall_insert; auto using refused_entry_kept.
    + destruct (mark_missing _ _ _ H Hf) as (_ & _ & ->). eauto.
  - loaded w H. eexists. split; [reflexivity|done].
  - rewrite (finishCapture_loaded _ _ H). eexists. split; [reflexivity|done].
Qed.

(** C2 (as amended).  From a loaded session whose tasks satisfy it (a fresh
    session does), every sequence of [markCaptured], [markFailed],
    [markSkipped], [startCapture] and [finishCapture] calls leads to a
    session in which every task has a status of the enumeration, has an
    artifact path whenever its status is [captured], and has an error
    message iff its status is [failed] or [skipped]. *)
Theorem task_invariant_reachable cs w md :
  session w = Some md →
  Forall task_invariant_kept (tasks md) →
  ∃ md', session (after cs w) = Some md' ∧
         Forall task_invariant_kept (tasks md').
Proof.
  revert w md. induction cs as [|c cs IH]; intros w md H Hinv; simpl.
  - eauto.
  - destruct (call_keeps_invariant c w md H Hinv) as (md1 & H1 & Hinv1).
    exact (IH _ _ H1 Hinv1).
Qed.

Lemma task_invariant_reachable_witness :
  ∃ md',
    session (after [MarkCaptured "screenshot_01_homepage" None;
                    MarkFailed "screenshot_01_homepage" "timeout";
                    MarkSkipped "screenshot_03_dashboard" "auth required"]
               (sample_world ticking three_pending)) = Some md' ∧
    Forall task_invariant_kept (tasks md').
Proof.
  apply (task_invariant_reachable _ (sample_world ticking three_pending)
           (sample_metadata three_pending) eq_refl).
  apply Forall_impl with (P := task_invariant); [|apply invariant_weaken].
  apply Forall_impl with (P := fresh); [|apply fresh_invariant].
  unfold three_pending, fresh.
  repeat (apply Forall_cons_2; [simpl; auto|]). apply Forall_nil_2.
Defined.

(** C2, the claim as worded, fails: after [markCaptured] then [markFailed]
    on the same task of a fresh session, the task is [failed] and still
    carries the artifact path of the capture. *)
Lemma invariant_as_specified_stale_path :
  ¬ invariant_as_specified
      (sample_world frozen [entry "screenshot_01_homepage" None]).
Proof.
  intros Hspec.
  eassert (session
             (after [MarkCaptured "screenshot_01_homepage" None;
                     MarkFailed "screenshot_01_homepage" "timeout"]
                (sample_world frozen [entry "screenshot_01_homepage" None]))
           = Some _) as Hrun by (vm_compute; reflexivity).
  apply Hspec in Hrun.
  apply Forall_cons_1 in Hrun as [(_ & [Hpath _] & _) _].
  by specialize (Hpath (mk_is_Some _ _ eq_refl)).
Qed.

(** ** The mark operations on the target task *)

(** C3 (as amended).  On a session that has the id, each mark operation
    returns normally, stamps the session ([updated_at]) with the clock
    reading [save] takes, and changes the first task with that id:
    [markCaptured] sets its status to [captured] and its timestamp
    [captured_at] to the clock reading taken at the call;
    [markFailed] sets [status = failed] and [error = message],
    [markSkipped] sets [status = skipped] and [error = reason], and both
    leave the task's timestamp as it was. *)
Theorem mark_timestamps w md screenshotId i s filePath message :
  session w = Some md →
  find_by_id screenshotId (tasks md) = Some (i, s) →
  (∃ w' md' s',
     markCaptured screenshotId filePath w = (Normal (), w') ∧
     session w' = Some md' ∧ tasks md' !! i = Some s' ∧
     Screenshot.status s' = Some "captured" ∧
     Screenshot.captured_at s' = Some (clock w (reads w)) ∧
     Metadata.updated_at md' = Some (clock w (S (reads w)))) ∧
  (∃ w' md' s',
     markFailed screenshotId message w = (Normal (), w') ∧
     session w' = Some md' ∧ tasks md' !! i = Some s' ∧
     Screenshot.status s' = Some "failed" ∧
     Screenshot.error s' = Some message ∧
     Screenshot.captured_at s' = Screenshot.captured_at s ∧
     Metadata.updated_at md' = Some (clock w (reads w))) ∧
  (∃ w' md' s',
     markSkipped screenshotId message w = (Normal (), w') ∧
     session w' = Some md' ∧ tasks md' !! i = Some s' ∧
     Screenshot.status s' = Some "skipped" ∧
     Screenshot.error s' = Some message ∧
     Screenshot.captured_at s' = Screenshot.captured_at s ∧
     Metadata.updated_at md' = Some (clock w (reads w))).
Proof.
  intros H Hf.
  pose proof (find_by_id_lookup _ _ _ _ Hf) as [Hi _].
  apply lookup_lt_Some in Hi.
  destruct (mark_refused_found "failed" _ _ _ message _ _ H Hf) as [Hfail _].
  destruct (mark_refused_found "skipped" _ _ _ message _ _ H Hf) as [_ Hskip].
  split_and!; do 3 eexists.
  - split; [by apply markCaptured_found|]. split; [done|].
    unfold tasks at 1. simpl. by rewrite list_lookup_insert_eq.
  - split; [by apply Hfail|]. split; [done|].
    unfold tasks at 1. simpl. by rewrite list_lookup_insert_eq.
  - split; [by apply Hskip|]. split; [done|].
    unfold tasks at 1. simpl. by rewrite list_lookup_insert_eq.
Qed.

Lemma mark_timestamps_witness :
  ∃ w' md' s',
    markFailed "screenshot_02_login" "timeout"
      (sample_world ticking three_pending) = (Normal (), w') ∧
    session w' = Some md' ∧ tasks md' !! 1 = Some s' ∧
    Screenshot.status s' = Some "failed" ∧
    Screenshot.error s' = Some "timeout" ∧
    Screenshot.captured_at s' = None ∧
    Metadata.updated_at md' = Some (ticking 0).
Proof.
  assert (find_by_id "screenshot_02_login"
            (tasks (sample_metadata three_pending))
          = Some (1, entry "screenshot_02_login" (Some "pending"))) as Hf
    by (vm_compute; reflexivity).
  exact (proj1 (proj2 (mark_timestamps (sample_world ticking three_pending)
                         (sample_metadata three_pending)
                         "screenshot_02_login" _ _ None "timeout"
                         eq_refl Hf))).
Defined.

(** C3, the claim as worded, fails: [markFailed] on a pending task leaves
    the task without a timestamp. *)
Lemma markFailed_as_specified_no_timestamp :
  ¬ markFailed_as_specified
      (sample_world frozen [entry "screenshot_01_homepage" None]).
Proof.
  intros Hspec.
  eassert (markFailed "screenshot_01_homepage" "timeout"
             (sample_world frozen [entry "screenshot_01_homepage" None])
           = (Normal (), _)) as Hrun by (vm_compute; reflexivity).
  assert (find_by_id "screenshot_01_homepage"
            (tasks (sample_metadata [entry "screenshot_01_homepage" None]))
          = Some (0, entry "screenshot_01_homepage" None)) as Hf
    by (vm_compute; reflexivity).
  destruct (Hspec _ _ _ _ _ _ eq_refl Hf Hrun)
    as (md' & s' & Hs & Hi & _ & _ & Ht).
  vm_compute in Hs. injection Hs as <-.
  vm_compute in Hi. injection Hi as <-.
  discriminate Ht.
Qed.

(** ** Unknown ids *)

(** C4.  On a loaded session, when the id is not among the task ids each of
    [markCaptured], [markFailed] and [markSkipped] throws
    [Screenshot not found: <id>] and leaves the whole world (manager, every
    task, the metadata file, the clock) as it was; when the id is among the
    task ids each of them returns normally. *)
Theorem mark_unknown_id w md screenshotId :
  session w = Some md →
  (screenshotId ∉ Screenshot.id <$> tasks md →
   ∀ filePath message,
     markCaptured screenshotId filePath w =
       (Throw ("Screenshot not found: " +:+ screenshotId), w) ∧
     markFailed screenshotId message w =
       (Throw ("Screenshot not found: " +:+ screenshotId), w) ∧
     markSkipped screenshotId message w =
       (Throw ("Screenshot not found: " +:+ screenshotId), w)) ∧
  (screenshotId ∈ Screenshot.id <$> tasks md →
   ∀ filePath message,
     (∃ w', markCaptured screenshotId filePath w = (Normal (), w')) ∧
     (∃ w', markFailed screenshotId message w = (Normal (), w')) ∧
     (∃ w', markSkipped screenshotId message w = (Normal (), w'))).
Proof.
  intros H. split.
  - intros Hf%find_by_id_None filePath message.
    destruct (mark_missing _ _ _ H Hf) as (Hc & Hm & Hs). auto.
  - intros (i & s & Hf)%find_by_id_is_Some filePath message.
    destruct (mark_refused_found "failed" _ _ _ message _ _ H Hf) as [Hm _].
    destruct (mark_refused_found "skipped" _ _ _ message _ _ H Hf) as [_ Hs].
    split_and!; eexists; [by apply markCaptured_found|by apply Hm|by apply Hs].
Qed.

Lemma mark_unknown_id_witness :
  markCaptured "nope" None (sample_world ticking three_pending) =
    (Throw "Screenshot not found: nope", sample_world ticking three_pending) ∧
  ∃ w', markFailed "screenshot_03_dashboard" "timeout"
          (sample_world ticking three_pending) = (Normal (), w').
Proof.
  destruct (mark_unknown_id (sample_world ticking three_pending)
              (sample_metadata three_pending) "nope" eq_refl)
    as [Hmissing _].
  destruct (mark_unknown_id (sample_world ticking three_pending)
              (sample_metadata three_pending) "screenshot_03_dashboard"
              eq_refl)
    as [_ Hfound].
  split.
  - apply (Hmissing ltac:(apply find_by_id_None; by vm_compute)
             None "timeout").
  - apply (Hfound ltac:(apply list_elem_of_In; vm_compute; auto) None "timeout").
Defined.

(** ** Idempotence of [markCaptured] *)

(** C5.  On a session that has the id, two [markCaptured] calls with the
    same arguments, made while the clock stands at [t], both return
    normally and the second leaves the manager and the metadata file
    exactly as the first left them.  After each call the first task with
    that id has [status = captured], [captured_at = t], no error message,
    and as artifact path the given path, or the default
    [{outputDir}/{id}.png] when no path (or an empty one) is given; its
    other fields are those it had. *)
Theorem markCaptured_idempotent w md screenshotId filePath t :
  session w = Some md →
  screenshotId ∈ Screenshot.id <$> tasks md →
  (∀ k, k < 4 → clock w (k + reads w) = t) →
  ∃ i s w1 w2 md1 s1,
    find_by_id screenshotId (tasks md) = Some (i, s) ∧
    markCaptured screenshotId filePath w = (Normal (), w1) ∧
    markCaptured screenshotId filePath w1 = (Normal (), w2) ∧
    this w2 = this w1 ∧ fs w2 = fs w1 ∧
    session w1 = Some md1 ∧ tasks md1 !! i = Some s1 ∧
    Screenshot.status s1 = Some "captured" ∧
    Screenshot.captured_at s1 = Some t ∧
    Screenshot.error s1 = None ∧
    (filePath = None →
     Screenshot.file_path s1 = Some (default_path w screenshotId)) ∧
    (filePath = Some EmptyString →
     Screenshot.file_path s1 = Some (default_path w screenshotId)) ∧
    (∀ p, filePath = Some p → p ≠ EmptyString → Screenshot.file_path s1 = Some p) ∧
    Screenshot.id s1 = Screenshot.id s ∧
    Screenshot.description s1 = Screenshot.description s ∧
    Screenshot.page s1 = Screenshot.page s ∧
    Screenshot.auth_required s1 = Screenshot.auth_required s ∧
    Screenshot.rest s1 = Screenshot.rest s.
Proof.
  intros H (i & s & Hf)%find_by_id_is_Some Ht.
  pose proof (find_by_id_lookup _ _ _ _ Hf) as [Hi Hid].
  pose proof (Ht 0 ltac:(lia)) as Ht0. pose proof (Ht 1 ltac:(lia)) as Ht1.
  pose proof (Ht 2 ltac:(lia)) as Ht2. pose proof (Ht 3 ltac:(lia)) as Ht3.
  simpl in Ht0, Ht1, Ht2, Ht3.
  pose proof (markCaptured_found _ _ _ filePath _ _ H Hf) as Hrun1.
  rewrite Ht0, Ht1 in Hrun1.
  set (path := Js.or filePath (default_path w screenshotId)) in *.
  set (s1 := captured_entry t path s) in *.
  set (md1 := Metadata.set_updated_at (Some t)
                (with_tasks (<[i := s1]> (tasks md)) md)) in *.
  assert (find_by_id screenshotId (tasks md1) = Some (i, s1)) as Hf1.
  { change (find_by_id screenshotId (<[i := s1]> (tasks md)) = Some (i, s1)).
    by apply (find_by_id_insert _ _ _ s). }
  pose proof (markCaptured_found (stored 2 md1 w) md1 _ filePath _ _
                eq_refl Hf1) as Hrun2.
  simpl in Hrun2. rewrite Ht2, Ht3 in Hrun2.
  change (default_path (stored 2 md1 w) screenshotId)
    with (default_path w screenshotId) in Hrun2.
  fold path in Hrun2.
  change (captured_entry t path s1) with s1 in Hrun2.
  assert (Metadata.set_updated_at (Some t)
            (with_tasks (<[i := s1]> (tasks md1)) md1) = md1) as Hmd.
  { unfold md1, with_tasks, tasks. simpl. by rewrite list_insert_insert_eq. }
  rewrite Hmd in Hrun2.
  exists i, s, (stored 2 md1 w), (stored 2 md1 (stored 2 md1 w)), md1, s1.
  split; [done|]. split; [exact Hrun1|]. split; [exact Hrun2|].
  split; [done|]. split; [by unfold stored; simpl; rewrite insert_insert_eq|].
  split; [done|]. split.
  { unfold tasks at 1. simpl. apply list_lookup_insert_eq.
    by eapply lookup_lt_Some. }
  split_and!; try done; subst path; simpl.
  - by intros ->.
  - by intros ->.
  - intros p -> Hp. simpl. by rewrite bool_decide_eq_true_2.
Qed.

Lemma markCaptured_idempotent_witness :
  ∃ w1 w2,
    markCaptured "screenshot_02_login" None
      (sample_world frozen three_pending) = (Normal (), w1) ∧
    markCaptured "screenshot_02_login" None w1 = (Normal (), w2) ∧
    this w2 = this w1 ∧ fs w2 = fs w1.
Proof.
  destruct (markCaptured_idempotent (sample_world frozen three_pending)
              (sample_metadata three_pending) "screenshot_02_login" None
              "2025-01-12T01:00:00Z" eq_refl)
    as (i & s & w1 & w2 & md1 & s1 & _ & Hrun1 & Hrun2 & Hthis & Hfs & _).
  - apply list_elem_of_In. vm_compute. auto.
  - reflexivity.
  - exists w1, w2. by split_and!.
Defined.

(** ** The frame of [markFailed] and [markSkipped] *)

Lemma refused_frame status w md i s message :
  session w = Some md →
  tasks md !! i = Some s →
  only_status_and_error i status message w
    (stored 1
       (Metadata.set_updated_at (Some (clock w (reads w)))
          (with_tasks (<[i := refused_entry status message s]> (tasks md)) md))
       w).
Proof.
  intros H Hi. pose proof (lookup_lt_Some _ _ _ Hi) as Hlt.
  exists md. eexists. exists s. eexists.
  split; [done|]. split; [reflexivity|]. split; [done|].
  unfold tasks at 1 3 4. simpl. fold (tasks md).
  split; [by apply list_lookup_insert_eq|].
  split_and!; try done; [by rewrite length_insert|].
  intros j Hj. unfold tasks at 1. simpl. by rewrite list_lookup_insert_ne.
Qed.

(** C10.  On a session that has the id, [markFailed] and [markSkipped]
    return normally and change, in the first task with that id, the status
    and the error message only: its id, description, page, authentication
    flag, artifact path, capture timestamp and remaining properties stay,
    every other task stays, and of the session only [updated_at] changes
    (stamped by [save], which also writes the session to the metadata
    file). *)
Theorem mark_refused_frame w md screenshotId message :
  session w = Some md →
  screenshotId ∈ Screenshot.id <$> tasks md →
  ∃ i s w1 w2,
    find_by_id screenshotId (tasks md) = Some (i, s) ∧
    markFailed screenshotId message w = (Normal (), w1) ∧
    only_status_and_error i "failed" message w w1 ∧
    markSkipped screenshotId message w = (Normal (), w2) ∧
    only_status_and_error i "skipped" message w w2.
Proof.
  intros H (i & s & Hf)%find_by_id_is_Some.
  pose proof (find_by_id_lookup _ _ _ _ Hf) as [Hi _].
  destruct (mark_refused_found "failed" _ _ _ message _ _ H Hf) as [Hfail _].
  destruct (mark_refused_found "skipped" _ _ _ message _ _ H Hf) as [_ Hskip].
  do 4 eexists. split; [exact Hf|].
  split; [by apply Hfail|]. split; [by apply refused_frame|].
  split; [by apply Hskip|]. by apply refused_frame.
Qed.

Lemma mark_refused_frame_witness :
  ∃ i s w1 w2,
    find_by_id "screenshot_02_login" (tasks (sample_metadata three_pending))
      = Some (i, s) ∧
    markFailed "screenshot_02_login" "timeout"
      (sample_world ticking three_pending) = (Normal (), w1) ∧
    only_status_and_error i "failed" "timeout"
      (sample_world ticking three_pending) w1 ∧
    markSkipped "screenshot_02_login" "timeout"
      (sample_world ticking three_pending) = (Normal (), w2) ∧
    only_status_and_error i "skipped" "timeout"
      (sample_world ticking three_pending) w2.
Proof.
  apply (mark_refused_frame (sample_world ticking three_pending)
           (sample_metadata three_pending) "screenshot_02_login" "timeout"
           eq_refl).
  apply list_elem_of_In. vm_compute. auto.
Defined.

(** ** The report *)

Lemma generateReport_lines w :
  generateReport w =
  match report_lines w with
  | (Normal lines, w') => (Normal (Js.join Js.newline lines), w')
  | (Throw e, w') => (Throw e, w')
  end.
Proof. reflexivity. Qed.

Lemma report_lines_unloaded w :
  session w = None →
  report_lines w = (Throw "TypeError: Cannot read properties of null", w).
Proof.
  intros H. destruct w as [[path m dir] ? ? ?]. unfold session in H.
  simpl in H. by subst m.
Qed.

(** C7 (as amended).  [generateReport] reads the manager and one clock
    reading and writes nothing: it leaves the manager and the file system
    as they were; two invocations on the same manager return the same
    completion whenever the clock readings they take are equal; and
    whatever the readings, the lines of the two reports agree everywhere
    but on the third line ([Generated: ...]). *)
Theorem generateReport_reads_clock w1 w2 :
  this w1 = this w2 →
  this (generateReport w1).2 = this w1 ∧
  fs (generateReport w1).2 = fs w1 ∧
  (clock w1 (reads w1) = clock w2 (reads w2) →
   (generateReport w1).1 = (generateReport w2).1) ∧
  (∀ l1 l2 (k : nat),
     (report_lines w1).1 = Normal l1 →
     (report_lines w2).1 = Normal l2 →
     k ≠ 2 → l1 !! k = l2 !! k).
Proof.
  intros Hthis. rewrite !generateReport_lines.
  destruct (session w1) as [md|] eqn:H1.
  - assert (session w2 = Some md) as H2 by (unfold session; by rewrite <- Hthis).
    destruct (report_lines_loaded w1 md H1) as (p1 & Hp1 & ->).
    destruct (report_lines_loaded w2 md H2) as (p2 & Hp2 & ->).
    rewrite (getProgress_loaded _ _ H1) in Hp1.
    rewrite (getProgress_loaded _ _ H2) in Hp2.
    simplify_eq. rewrite <- Hthis. simpl.
    split_and!; [done|done|by intros ->|].
    intros l1 l2 k ? ? Hk. simplify_eq. unfold report_header.
    by destruct k as [|[|[|k]]].
  - assert (session w2 = None) as H2 by (unfold session; by rewrite <- Hthis).
    rewrite (report_lines_unloaded _ H1), (report_lines_unloaded _ H2).
    simpl. by split_and!.
Qed.

Lemma generateReport_reads_clock_witness :
  (generateReport (sample_world frozen three_pending)).1 =
  (generateReport
     (mkWorld (this (sample_world frozen three_pending)) ∅ frozen 7)).1.
Proof.
  apply (generateReport_reads_clock (sample_world frozen three_pending)
           (mkWorld (this (sample_world frozen three_pending)) ∅ frozen 7)
           eq_refl).
  reflexivity.
Defined.

(** C7, the claim as worded, fails: the report quotes the clock, so two
    invocations on the same session return different strings when the clock
    has advanced in between. *)
Lemma report_as_specified_clock :
  ¬ report_as_specified (sample_world ticking three_pending).
Proof.
  intros Hspec.
  eassert (generateReport (sample_world ticking three_pending) = (_, _))
    as Hrun1 by (vm_compute; reflexivity).
  eassert (generateReport _ = (_, _)) as Hrun2;
    [|specialize (Hspec _ _ _ _ Hrun1 Hrun2)]; [vm_compute; reflexivity|].
  discriminate Hspec.
Qed.

(** ** The two rollups *)

(** The loop of [updateMetadata] never throws and touches the clock only. *)
Lemma apply_results_normal results metadata w :
  ∃ metadata' n,
    apply_results results metadata w =
    (Normal metadata', mkWorld (this w) (fs w) (clock w) (n + reads w)).
Proof.
  revert metadata w. induction results as [|r results IH]; intros metadata w.
  - exists metadata, 0. by destruct w.
  - simpl. unfold mbind, Eff_bind, apply_result.
    destruct (find_by_id _ _) as [[i s]|]; simpl.
    + edestruct IH as (md' & n & ->). exists md', (n + 1). simpl.
      do 2 f_equal. lia.
    + edestruct IH as (md' & n & ->). exists md', n. by destruct w.
Qed.

(** The rollup [updateMetadata] writes, as a function of the batch. *)
Lemma updateMetadata_status path results w metadata :
  fs w !! path = Some metadata →
  file_status path (updateMetadata path results w).2 =
    Some (if bool_decide (count_captured results = length SCREENSHOTS)
          then "captured" else "partial").
Proof.
  intros Hfile.
  unfold updateMetadata, try_catch, mbind, Eff_bind, existsSync, readJSON.
  rewrite Hfile. rewrite bool_decide_eq_true_2 by eauto. simpl.
  rewrite Hfile.
  destruct (apply_results_normal results metadata w) as (md' & n & ->).
  unfold file_status. simpl. by rewrite lookup_insert_eq.
Qed.

(** When the tasks carry the statuses of the results, both sides count the
    same captures over the same number of tasks. *)
Lemma statuses_of_results l results :
  Screenshot.status <$> l = (λ r, Some (Result.status r)) <$> results →
  length l = length results ∧
  count_status "captured" l = count_captured results.
Proof.
  revert results. induction l as [|s l IH]; intros [|r results] Heq;
    try done.
  rewrite !fmap_cons in Heq. injection Heq as Hs Hrest.
  destruct (IH _ Hrest) as [Hlen Hcount]. split; [by simpl; f_equal|].
  rewrite count_status_cons, Hcount. unfold count_captured.
  rewrite filter_cons.
  destruct (decide (Screenshot.status s = Some "captured")),
    (decide (Result.status r = "captured")); simpl; congruence.
Qed.

(** C8 (as amended).  Take a batch with one result per entry of
    [SCREENSHOTS], a manager whose tasks carry the statuses of the batch,
    and an existing metadata file.  The rollup left by [finishCapture] and
    the rollup written by [updateMetadata] are the same exactly when at
    least one result is captured.  When none is, [finishCapture] leaves
    [failed] and [updateMetadata] writes [partial]; [updateMetadata] never
    writes [failed]. *)
Theorem rollups_compared path results w w' md metadata :
  session w = Some md →
  fs w' !! path = Some metadata →
  Screenshot.status <$> tasks md = (λ r, Some (Result.status r)) <$> results →
  length results = length SCREENSHOTS →
  (rollups_agree path results w w' ↔ 0 < count_captured results) ∧
  (count_captured results = 0 →
   session_status (finishCapture w).2 = Some "failed" ∧
   file_status path (updateMetadata path results w').2 = Some "partial") ∧
  file_status path (updateMetadata path results w').2 ≠ Some "failed".
Proof.
  intros H Hfile [Hlen Hcount]%statuses_of_results Hall.
  unfold rollups_agree.
  rewrite (updateMetadata_status _ _ _ _ Hfile).
  rewrite (finishCapture_loaded _ _ H). unfold session_status. simpl.
  rewrite Hlen, Hcount, Hall.
  change (length SCREENSHOTS) with 7.
  repeat case_bool_decide;
    (split_and!;
     [ split; intros Hx; [first [lia | discriminate Hx] | first [done | lia]]
     | intros Hx; first [lia | by split]
     | done ]).
Qed.

Lemma rollups_compared_witness :
  session_status (finishCapture (sample_world frozen all_failed_tasks)).2
    = Some "failed" ∧
  file_status ".manual-meta.json"
    (updateMetadata ".manual-meta.json" all_failed_results
       (sample_world frozen three_pending)).2
    = Some "partial".
Proof.
  apply (rollups_compared ".manual-meta.json" all_failed_results
           (sample_world frozen all_failed_tasks)
           (sample_world frozen three_pending)
           (sample_metadata all_failed_tasks)
           (sample_metadata three_pending));
    [reflexivity|by vm_compute|reflexivity|reflexivity|reflexivity].
Defined.

(** C8, the claim as worded, fails on the batch in which every capture
    failed: [finishCapture] rolls it up as [failed], [updateMetadata] as
    [partial]. *)
Lemma rollups_agree_all_failed :
  ¬ rollups_agree ".manual-meta.json" all_failed_results
      (sample_world frozen all_failed_tasks)
      (sample_world frozen all_failed_tasks).
Proof. unfold rollups_agree. vm_compute. discriminate. Qed.

(** * Further properties of the two scripts *)

(** ** What a call does to a loaded manager *)

Lemma startCapture_loaded w md :
  session w = Some md →
  startCapture w =
    (Normal (),
     stored 2
       (Metadata.mk (Some (clock w (S (reads w))))
          (Screenshots.mk (Some "capturing")
             (Screenshots.output_dir (Metadata.screenshots md))
             (Some (clock w (reads w)))
             (Screenshots.captured_at (Metadata.screenshots md))
             (tasks md)
             (Screenshots.summary (Metadata.screenshots md)))
          (Metadata.rest md))
       w).
Proof. intros H. loaded w H. reflexivity. Qed.

(** A mark operation on an id the session has replaces the first task with
    that id by a task of the same definition that is not pending. *)
Lemma call_mark_found c w md screenshotId i s :
  session w = Some md →
  marks screenshotId c →
  find_by_id screenshotId (tasks md) = Some (i, s) →
  ∃ e n t,
    call c w =
      (Normal (),
       stored n
         (Metadata.set_updated_at (Some t)
            (with_tasks (<[i := e]> (tasks md)) md))
         w) ∧
    task_definition e = task_definition s ∧
    ¬ is_pending e ∧
    ((∃ now path, e = captured_entry now path s) ∨
     ∃ status message,
       (status = "failed" ∨ status = "skipped") ∧
       e = refused_entry status message s).
Proof.
  intros H Hc Hf. destruct c as [j p|j m|j r| |]; simpl in Hc; try done;
    subst j; simpl.
  - do 3 eexists. split; [by apply markCaptured_found|].
    split; [done|]. split; [|eauto].
    unfold is_pending. simpl. intros [?|?]; discriminate.
  - destruct (mark_refused_found "failed" _ _ _ m _ _ H Hf) as [Hm _].
    do 3 eexists. split; [by apply Hm|]. split; [done|]. split; [|eauto 10].
    unfold is_pending. simpl. intros [?|?]; discriminate.
  - destruct (mark_refused_found "skipped" _ _ _ r _ _ H Hf) as [_ Hm].
    do 3 eexists. split; [by apply Hm|]. split; [done|]. split; [|eauto 10].
    unfold is_pending. simpl. intros [?|?]; discriminate.
Qed.

Lemma call_mark_missing c w md screenshotId :
  session w = Some md →
  marks screenshotId c →
  find_by_id screenshotId (tasks md) = None →
  call c w = (Throw ("Screenshot not found: " +:+ screenshotId), w).
Proof.
  intros H Hc Hf. destruct (mark_missing _ _ _ H Hf) as (Hcap & Hfail & Hskip).
  destruct c as [j p|j m|j r| |]; simpl in Hc; try done; subst j; simpl; auto.
Qed.

(** Every call on a loaded manager either throws and changes nothing, or
    installs and writes a session whose task list is the old one, up to the
    replacement a mark operation makes. *)
Lemma call_effect c w md :
  session w = Some md →
  (∃ e, call c w = (Throw e, w)) ∨
  (∃ md' n,
     call c w = (Normal (), stored n md' w) ∧
     (tasks md' = tasks md ∨
      ∃ screenshotId i s e,
        marks screenshotId c ∧
        find_by_id screenshotId (tasks md) = Some (i, s) ∧
        tasks md' = <[i := e]> (tasks md) ∧
        task_definition e = task_definition s ∧
        ¬ is_pending e)).
Proof.
  intros H.
  assert ((∃ screenshotId, marks screenshotId c) ∨ c = StartCapture ∨
          c = FinishCapture) as [[screenshotId Hc]|[->| ->]]
    by (destruct c; simpl; eauto).
  - destruct (find_by_id screenshotId (tasks md)) as [[i s]|] eqn:Hf.
    + right.
      destruct (call_mark_found c w md _ _ _ H Hc Hf)
        as (e & n & t & -> & ? & ? & _).
      do 2 eexists. split; [done|]. right. by exists screenshotId, i, s, e.
    + left. eexists. by apply call_mark_missing with md.
  - right. do 2 eexists. split; [by apply startCapture_loaded|]. by left.
  - right. do 2 eexists. split; [by apply finishCapture_loaded|]. by left.
Qed.

(** ** Loading and saving *)

Lemma load_result w :
  let path := ScreenshotManager.metadataPath (this w) in
  (fs w !! path = None →
   load w = (Throw ("Metadata file not found: " +:+ path), w)) ∧
  (∀ md, fs w !! path = Some md →
     load w =
       (Normal (),
        mkWorld
          (ScreenshotManager.mk path (Some md)
             (Js.or (Screenshots.output_dir (Metadata.screenshots md))
                "screenshots"))
          (fs w) (clock w) (reads w))).
Proof.
  destruct w as [[path m dir] files tick n]. simpl. split.
  - intros Hfile.
    unfold load, mbind, Eff_bind, getThis, existsSync. simpl. rewrite Hfile.
    rewrite bool_decide_eq_false_2 by (by intros [? ?]). reflexivity.
  - intros md Hfile.
    unfold load, mbind, Eff_bind, getThis, existsSync, readJSON.
    simpl. rewrite Hfile. rewrite bool_decide_eq_true_2 by eauto. simpl.
    by rewrite Hfile.
Qed.

(** X1.  [load] throws [Metadata file not found: <path>] and changes nothing
    when the metadata file does not exist; otherwise it installs the content
    of the file as the session, without writing anything or reading the
    clock, and sets the output directory to the session's [output_dir], or
    to [screenshots] when that is absent or empty. *)
Theorem load_outcome w :
  let path := ScreenshotManager.metadataPath (this w) in
  (fs w !! path = None →
   load w = (Throw ("Metadata file not found: " +:+ path), w)) ∧
  (∀ md, fs w !! path = Some md →
     load w =
       (Normal (),
        mkWorld
          (ScreenshotManager.mk path (Some md)
             (Js.or (Screenshots.output_dir (Metadata.screenshots md))
                "screenshots"))
          (fs w) (clock w) (reads w)) ∧
     (Js.truthy (Screenshots.output_dir (Metadata.screenshots md)) = false →
      Js.or (Screenshots.output_dir (Metadata.screenshots md)) "screenshots"
      = "screenshots")).
Proof.
  destruct (load_result w) as [Hmissing Hfound]. split; [exact Hmissing|].
  intros md Hfile. split; [by apply Hfound|].
  destruct (Screenshots.output_dir _) as [d|]; simpl; [|done].
  by intros ->.
Qed.

Lemma load_outcome_witness :
  load (mkWorld (ScreenshotManager.mk "missing.json" None "screenshots")
          ∅ frozen 0)
  = (Throw "Metadata file not found: missing.json",
     mkWorld (ScreenshotManager.mk "missing.json" None "screenshots")
       ∅ frozen 0).
Proof.
  apply (load_outcome
           (mkWorld (ScreenshotManager.mk "missing.json" None "screenshots")
              ∅ frozen 0)).
  reflexivity.
Defined.

(** X2.  Every call of [markCaptured], [markFailed], [markSkipped],
    [startCapture] or [finishCapture] that returns normally leaves the
    metadata file equal to the session the manager holds, so that a [load]
    made next reads back exactly that session. *)
Theorem call_synced c w md w' :
  session w = Some md →
  call c w = (Normal (), w') →
  synced w' ∧
  ∃ w'', load w' = (Normal (), w'') ∧ session w'' = session w' ∧
         fs w'' = fs w'.
Proof.
  intros H Hrun.
  destruct (call_effect c w md H) as [[e He]|(md' & n & Hcall & _)];
    [congruence|].
  rewrite Hcall in Hrun. injection Hrun as <-.
  assert (synced (stored n md' w)) as Hsync
    by (unfold synced, stored, session; simpl; apply lookup_insert_eq).
  split; [done|].
  destruct (load_result (stored n md' w)) as [_ Hload].
  rewrite (Hload md' Hsync). by eexists.
Qed.

Lemma call_synced_witness :
  ∃ w' w'',
    markFailed "screenshot_02_login" "timeout"
      (sample_world frozen three_pending) = (Normal (), w') ∧
    synced w' ∧ load w' = (Normal (), w'') ∧ session w'' = session w'.
Proof.
  eassert (call (MarkFailed "screenshot_02_login" "timeout")
             (sample_world frozen three_pending) = (Normal (), _)) as Hrun
    by (vm_compute; reflexivity).
  destruct (call_synced (MarkFailed "screenshot_02_login" "timeout")
              (sample_world frozen three_pending)
              (sample_metadata three_pending) _ eq_refl Hrun)
    as (Hsync & w'' & Hload & Hsession & _).
  eauto 10.
Defined.

(** ** What no call changes *)

Lemma call_keeps_definitions c w md :
  session w = Some md →
  ∃ md', session (call c w).2 = Some md' ∧
         task_definition <$> tasks md' = task_definition <$> tasks md.
Proof.
  intros H.
  destruct (call_effect c w md H)
    as [[e ->]|(md' & n & -> & [Hsame|(id & i & s & e & _ & Hf & Hl & He & _)])].
  - eauto.
  - exists md'. by rewrite Hsame.
  - exists md'. split; [done|].
    apply find_by_id_lookup in Hf as [Hi _].
    rewrite Hl, list_fmap_insert, He. apply list_insert_id.
    by rewrite list_lookup_fmap, Hi.
Qed.

(** X3.  Whatever calls are made on a loaded manager, the tasks stay the
    same tasks: their number, their order, and each task's id, description,
    page, authentication flag and remaining properties never change (only
    status, artifact path, timestamp and error message do). *)
Theorem definitions_invariant cs w md :
  session w = Some md →
  ∃ md', session (after cs w) = Some md' ∧
         task_definition <$> tasks md' = task_definition <$> tasks md ∧
         length (tasks md') = length (tasks md).
Proof.
  revert w md. induction cs as [|c cs IH]; intros w md H; simpl.
  - eauto.
  - destruct (call_keeps_definitions c w md H) as (md1 & H1 & Hdef1).
    destruct (IH _ _ H1) as (md' & H' & Hdef' & _).
    exists md'. split; [done|]. rewrite Hdef', Hdef1. split; [done|].
    apply (f_equal length) in Hdef', Hdef1.
    rewrite !length_fmap in Hdef', Hdef1. lia.
Qed.

Lemma definitions_invariant_witness :
  ∃ md',
    session (after [StartCapture; MarkCaptured "screenshot_01_homepage" None;
                    MarkFailed "nope" "timeout"; FinishCapture]
               (sample_world ticking three_pending)) = Some md' ∧
    task_definition <$> tasks md' =
      task_definition <$> tasks (sample_metadata three_pending) ∧
    length (tasks md') = length (tasks (sample_metadata three_pending)).
Proof.
  apply (definitions_invariant _ (sample_world ticking three_pending)
           (sample_metadata three_pending) eq_refl).
Defined.

Lemma call_keeps_shadowed c w md i j s s' :
  session w = Some md →
  tasks md !! i = Some s →
  tasks md !! j = Some s' →
  i < j →
  Screenshot.id s = Screenshot.id s' →
  ∃ md1 s1,
    session (call c w).2 = Some md1 ∧
    tasks md1 !! i = Some s1 ∧ Screenshot.id s1 = Screenshot.id s ∧
    tasks md1 !! j = Some s'.
Proof.
  intros H Hi Hj Hlt Hid.
  destruct (call_effect c w md H)
    as [[e ->]|(md' & n & -> & [Hsame|(id & k & sk & e & _ & Hf & Hl & He & _)])].
  - exists md, s. by split_and!.
  - exists md', s. rewrite Hsame. by split_and!.
  - pose proof Hf as (Hk & Hidk & Hleast)%list_find_Some.
    assert (k ≠ j) as Hkj.
    { intros ->. apply (Hleast i s Hi Hlt). simpl. simplify_eq. congruence. }
    assert (Screenshot.id e = Screenshot.id sk) as Hide
      by (by injection He).
    destruct (decide (k = i)) as [->|Hki].
    + exists md', e. rewrite Hl. split; [done|].
      rewrite list_lookup_insert_eq by (by eapply lookup_lt_Some).
      rewrite list_lookup_insert_ne by done. simplify_eq. by split_and!.
    + exists md', s. rewrite Hl. split; [done|].
      rewrite !list_lookup_insert_ne by done. by split_and!.
Qed.

(** X4.  A task that comes after another task with the same id is out of
    reach: no sequence of calls ever changes any of its fields, because
    every mark operation stops at the first task with the id. *)
Theorem shadowed_task_untouched cs w md i j s s' :
  session w = Some md →
  tasks md !! i = Some s →
  tasks md !! j = Some s' →
  i < j →
  Screenshot.id s = Screenshot.id s' →
  ∃ md', session (after cs w) = Some md' ∧ tasks md' !! j = Some s'.
Proof.
  revert w md s. induction cs as [|c cs IH]; intros w md s H Hi Hj Hlt Hid;
    simpl.
  - eauto.
  - destruct (call_keeps_shadowed c w md i j s s' H Hi Hj Hlt Hid)
      as (md1 & s1 & H1 & Hi1 & Hid1 & Hj1).
    apply (IH _ md1 s1); [done..|congruence].
Qed.

Lemma shadowed_task_untouched_witness :
  ∃ md',
    session (after [MarkCaptured "a" None; MarkFailed "a" "timeout";
                    MarkSkipped "a" "auth required"; FinishCapture]
               (sample_world ticking [entry "a" None; entry "a" None]))
      = Some md' ∧
    tasks md' !! 1 = Some (entry "a" None).
Proof.
  apply (shadowed_task_untouched _
           (sample_world ticking [entry "a" None; entry "a" None])
           (sample_metadata [entry "a" None; entry "a" None])
           0 1 (entry "a" None) (entry "a" None));
    [reflexivity|reflexivity|reflexivity|lia|reflexivity].
Defined.

(** ** Filters *)

Lemma getList_filter_loaded w md :
  session w = Some md →
  getPendingScreenshots w = (Normal (filter is_pending (tasks md)), w) ∧
  getAuthRequiredScreenshots w =
    (Normal (filter (λ s, Screenshot.auth_required s = true) (tasks md)), w) ∧
  getPublicScreenshots w =
    (Normal (filter (λ s, Screenshot.auth_required s = false) (tasks md)), w).
Proof. intros H. loaded w H. by split_and!. Qed.

Lemma auth_split (l : list Screenshot.t) :
  filter (λ s, Screenshot.auth_required s = true) l ++
  filter (λ s, Screenshot.auth_required s = false) l ≡ₚ l.
Proof.
  induction l as [|s l IH]; [done|].
  rewrite !filter_cons. destruct (Screenshot.auth_required s) eqn:Ha.
  - rewrite decide_True, decide_False by done. simpl. by f_equiv.
  - rewrite decide_False, decide_True by done.
    rewrite <- Permutation_middle. by f_equiv.
Qed.

(** X5.  On a loaded manager [getAuthRequiredScreenshots] and
    [getPublicScreenshots] change nothing and split the task list in two:
    together they hold every task exactly once (they are a permutation of
    the list), every task of the first requires authentication and no task
    of the second does. *)
Theorem auth_partition w md :
  session w = Some md →
  ∃ auth public,
    getAuthRequiredScreenshots w = (Normal auth, w) ∧
    getPublicScreenshots w = (Normal public, w) ∧
    auth ++ public ≡ₚ tasks md ∧
    length auth + length public = length (tasks md) ∧
    Forall (λ s, Screenshot.auth_required s = true) auth ∧
    Forall (λ s, Screenshot.auth_required s = false) public.
Proof.
  intros H. destruct (getList_filter_loaded w md H) as (_ & Ha & Hp).
  do 2 eexists. split; [exact Ha|]. split; [exact Hp|].
  split; [apply auth_split|].
  split; [by rewrite <- length_app, auth_split|].
  split; apply Forall_forall; by intros s [? _]%list_elem_of_filter.
Qed.

Lemma auth_partition_witness :
  ∃ auth public,
    getAuthRequiredScreenshots (sample_world frozen all_failed_tasks)
      = (Normal auth, sample_world frozen all_failed_tasks) ∧
    getPublicScreenshots (sample_world frozen all_failed_tasks)
      = (Normal public, sample_world frozen all_failed_tasks) ∧
    auth ++ public ≡ₚ tasks (sample_metadata all_failed_tasks) ∧
    length auth + length public
      = length (tasks (sample_metadata all_failed_tasks)) ∧
    Forall (λ s, Screenshot.auth_required s = true) auth ∧
    Forall (λ s, Screenshot.auth_required s = false) public.
Proof.
  apply (auth_partition (sample_world frozen all_failed_tasks)
           (sample_metadata all_failed_tasks) eq_refl).
Defined.

Lemma pending_insert (l : list Screenshot.t) i x y :
  l !! i = Some x →
  ¬ is_pending y →
  length (filter is_pending (<[i := y]> l)) +
    (if decide (is_pending x) then 1 else 0)
  = length (filter is_pending l).
Proof.
  revert i. induction l as [|z l IH]; intros [|i] Hi Hy; simplify_eq/=.
  - rewrite !filter_cons. rewrite decide_False by done.
    destruct (decide (is_pending x)); simpl; lia.
  - rewrite !filter_cons. specialize (IH i Hi Hy).
    destruct (decide (is_pending z)); simpl; lia.
Qed.

(** X6.  A mark operation on an id the session has takes the first task
    with that id off the pending list and adds none: afterwards
    [getPendingScreenshots] returns one task fewer if that task was pending
    and as many as before if it was not, and every task it returns was
    returned before. *)
Theorem mark_clears_pending c w md screenshotId i s :
  session w = Some md →
  marks screenshotId c →
  find_by_id screenshotId (tasks md) = Some (i, s) →
  ∃ w' before later,
    getPendingScreenshots w = (Normal before, w) ∧
    call c w = (Normal (), w') ∧
    getPendingScreenshots w' = (Normal later, w') ∧
    length later + (if decide (is_pending s) then 1 else 0) = length before ∧
    later ⊆ before.
Proof.
  intros H Hc Hf.
  destruct (call_mark_found c w md _ _ _ H Hc Hf)
    as (e & n & t & Hrun & _ & He & _).
  pose proof (find_by_id_lookup _ _ _ _ Hf) as [Hi _].
  destruct (getList_filter_loaded w md H) as (Hbefore & _).
  set (md' := Metadata.set_updated_at (Some t)
                (with_tasks (<[i := e]> (tasks md)) md)) in *.
  destruct (getList_filter_loaded (stored n md' w) md' eq_refl)
    as (Hlater & _).
  do 3 eexists. split; [exact Hbefore|]. split; [exact Hrun|].
  split; [exact Hlater|].
  change (tasks md') with (<[i := e]> (tasks md)).
  split; [by apply pending_insert|].
  intros x [Hx Hin]%list_elem_of_filter. apply list_elem_of_filter.
  split; [done|].
  apply list_elem_of_lookup in Hin as [k Hk].
  apply list_lookup_insert_Some in Hk as [(_ & <- & _)|[_ Hk]]; [done|].
  by eapply list_elem_of_lookup_2.
Qed.

Lemma mark_clears_pending_witness :
  ∃ w' before later,
    getPendingScreenshots (sample_world frozen three_pending)
      = (Normal before, sample_world frozen three_pending) ∧
    markSkipped "screenshot_02_login" "auth required"
      (sample_world frozen three_pending) = (Normal (), w') ∧
    getPendingScreenshots w' = (Normal later, w') ∧
    length later + 1 = length before ∧
    later ⊆ before.
Proof.
  assert (find_by_id "screenshot_02_login"
            (tasks (sample_metadata three_pending))
          = Some (1, entry "screenshot_02_login" (Some "pending"))) as Hf
    by (vm_compute; reflexivity).
  exact (mark_clears_pending
           (MarkSkipped "screenshot_02_login" "auth required")
           (sample_world frozen three_pending)
           (sample_metadata three_pending) "screenshot_02_login" _ _
           eq_refl eq_refl Hf).
Defined.

(** ** The rollup as a function of the statuses *)

Lemma count_status_statuses v (l : list Screenshot.t) :
  count_status v l = length (filter (λ o, o = Some v) (Screenshot.status <$> l)).
Proof.
  unfold count_status. induction l as [|s l IH]; [done|].
  rewrite fmap_cons, !filter_cons.
  destruct (decide (Screenshot.status s = Some v)); simpl; by rewrite IH.
Qed.

Lemma count_status_Permutation v (l1 l2 : list Screenshot.t) :
  Screenshot.status <$> l1 ≡ₚ Screenshot.status <$> l2 →
  count_status v l1 = count_status v l2.
Proof. intros Hp. rewrite !count_status_statuses. by rewrite Hp. Qed.

(** X7.  The session status and the summary [finishCapture] leaves depend
    on the statuses of the tasks only, and not on their order: two loaded
    managers whose task statuses are the same up to order end with the same
    session status and the same summary, whatever their earlier session
    status, their other fields and the time. *)
Theorem rollup_of_statuses w1 md1 w2 md2 :
  session w1 = Some md1 →
  session w2 = Some md2 →
  Screenshot.status <$> tasks md1 ≡ₚ Screenshot.status <$> tasks md2 →
  ∃ w1' md1' w2' md2',
    finishCapture w1 = (Normal (), w1') ∧ session w1' = Some md1' ∧
    finishCapture w2 = (Normal (), w2') ∧ session w2' = Some md2' ∧
    Screenshots.status (Metadata.screenshots md1') =
      Screenshots.status (Metadata.screenshots md2') ∧
    Screenshots.summary (Metadata.screenshots md1') =
      Screenshots.summary (Metadata.screenshots md2').
Proof.
  intros H1 H2 Hp.
  pose proof (finishCapture_loaded w1 md1 H1) as Hrun1.
  pose proof (finishCapture_loaded w2 md2 H2) as Hrun2.
  simpl in Hrun1, Hrun2.
  assert (length (tasks md1) = length (tasks md2)) as Hlen.
  { apply Permutation_length in Hp. by rewrite !length_fmap in Hp. }
  rewrite !(count_status_Permutation _ _ _ Hp), Hlen in Hrun1.
  do 4 eexists. split; [exact Hrun1|]. split; [reflexivity|].
  split; [exact Hrun2|]. by split_and!.
Qed.

Lemma rollup_of_statuses_witness :
  ∃ w1' md1' w2' md2',
    finishCapture
      (sample_world ticking [entry "a" (Some "captured"); entry "b" None])
      = (Normal (), w1') ∧ session w1' = Some md1' ∧
    finishCapture
      (sample_world frozen [entry "c" None; entry "d" (Some "captured")])
      = (Normal (), w2') ∧ session w2' = Some md2' ∧
    Screenshots.status (Metadata.screenshots md1') =
      Screenshots.status (Metadata.screenshots md2') ∧
    Screenshots.summary (Metadata.screenshots md1') =
      Screenshots.summary (Metadata.screenshots md2').
Proof.
  apply (rollup_of_statuses
           (sample_world ticking [entry "a" (Some "captured"); entry "b" None])
           (sample_metadata [entry "a" (Some "captured"); entry "b" None])
           (sample_world frozen [entry "c" None; entry "d" (Some "captured")])
           (sample_metadata [entry "c" None; entry "d" (Some "captured")])
           eq_refl eq_refl).
  apply Permutation_swap.
Defined.

(** ** Sequences of mark operations *)

(** What [markFailed] or [markSkipped] on [screenshotId] does, in any
    world: the status and the message it writes depend on the call only. *)
Lemma refusal_effect c screenshotId :
  refuses screenshotId c →
  ∃ status message,
    (status = "failed" ∨ status = "skipped") ∧
    ∀ w md,
      session w = Some md →
      (find_by_id screenshotId (tasks md) = None →
       call c w = (Throw ("Screenshot not found: " +:+ screenshotId), w)) ∧
      (∀ i s,
         find_by_id screenshotId (tasks md) = Some (i, s) →
         call c w =
           (Normal (),
            stored 1
              (Metadata.set_updated_at (Some (clock w (reads w)))
                 (with_tasks
                    (<[i := refused_entry status message s]> (tasks md)) md))
              w)).
Proof.
  destruct c as [j p|j m|j r| |]; simpl; try done; intros ->.
  - exists "failed", m. split; [by left|]. intros w md H. split.
    + intros Hf. by destruct (mark_missing _ _ _ H Hf) as (_ & ? & _).
    + intros i s Hf.
      destruct (mark_refused_found "failed" _ _ _ m _ _ H Hf) as [Hm _]. auto.
  - exists "skipped", r. split; [by right|]. intros w md H. split.
    + intros Hf. by destruct (mark_missing _ _ _ H Hf) as (_ & _ & ?).
    + intros i s Hf.
      destruct (mark_refused_found "skipped" _ _ _ r _ _ H Hf) as [_ Hm]. auto.
Qed.

(** X8.  A capture after a failure or a skip leaves no trace of it: after
    [markFailed] or [markSkipped] and then [markCaptured] on the same id,
    the task list is the one a lone [markCaptured] writes (the first task
    with the id is captured, with the path given or the default one, no
    error message, and the time of the capture; every other task is
    untouched). *)
Theorem recapture_after_refusal c w md screenshotId i s filePath :
  session w = Some md →
  refuses screenshotId c →
  find_by_id screenshotId (tasks md) = Some (i, s) →
  ∃ w1 w2 md2,
    call c w = (Normal (), w1) ∧
    markCaptured screenshotId filePath w1 = (Normal (), w2) ∧
    session w2 = Some md2 ∧
    tasks md2 =
      <[i := captured_entry (clock w (S (reads w)))
               (Js.or filePath (default_path w screenshotId)) s]> (tasks md).
Proof.
  intros H Hc Hf.
  destruct (refusal_effect c _ Hc) as (status & message & _ & Heffect).
  destruct (Heffect w md H) as [_ Hrun1]. specialize (Hrun1 i s Hf).
  pose proof (find_by_id_lookup _ _ _ _ Hf) as [Hi Hid].
  set (e := refused_entry status message s) in *.
  set (md1 := Metadata.set_updated_at (Some (clock w (reads w)))
                (with_tasks (<[i := e]> (tasks md)) md)) in *.
  assert (find_by_id screenshotId (tasks md1) = Some (i, e)) as Hf1.
  { change (find_by_id screenshotId (<[i := e]> (tasks md)) = Some (i, e)).
    by apply (find_by_id_insert _ _ _ s). }
  pose proof (markCaptured_found (stored 1 md1 w) md1 _ filePath _ _
                eq_refl Hf1) as Hrun2.
  do 3 eexists. split; [exact Hrun1|]. split; [exact Hrun2|].
  split; [reflexivity|].
  change (<[i := captured_entry (clock w (S (reads w)))
                   (Js.or filePath (default_path w screenshotId)) s]>
            (<[i := e]> (tasks md)) = 
          <[i := captured_entry (clock w (S (reads w)))
                   (Js.or filePath (default_path w screenshotId)) s]>
            (tasks md)).
  apply list_insert_insert_eq.
Qed.

Lemma recapture_after_refusal_witness :
  ∃ w1 w2 md2,
    markFailed "screenshot_01_homepage" "timeout"
      (sample_world frozen three_pending) = (Normal (), w1) ∧
    markCaptured "screenshot_01_homepage" None w1 = (Normal (), w2) ∧
    session w2 = Some md2 ∧
    tasks md2 !! 0 =
      Some (captured_entry "2025-01-12T01:00:00Z"
              "screenshots/screenshot_01_homepage.png"
              (entry "screenshot_01_homepage" None)).
Proof.
  assert (find_by_id "screenshot_01_homepage"
            (tasks (sample_metadata three_pending))
          = Some (0, entry "screenshot_01_homepage" None)) as Hf
    by (vm_compute; reflexivity).
  destruct (recapture_after_refusal
              (MarkFailed "screenshot_01_homepage" "timeout")
              (sample_world frozen three_pending)
              (sample_metadata three_pending) "screenshot_01_homepage"
              _ _ None eq_refl eq_refl Hf)
    as (w1 & w2 & md2 & Hrun1 & Hrun2 & Hs & Hl).
  exists w1, w2, md2. split_and!; [done..|]. by rewrite Hl.
Defined.

(** Replacing a task by one of the same id does not change which task any
    other id finds. *)
Lemma find_by_id_insert_other b (l : list Screenshot.t) i s e :
  l !! i = Some s →
  Screenshot.id e = Screenshot.id s →
  Screenshot.id s ≠ b →
  find_by_id b (<[i := e]> l) = find_by_id b l.
Proof.
  unfold find_by_id. revert i.
  induction l as [|z l IH]; intros [|i] Hi He Hs; simplify_eq/=.
  - rewrite !decide_False by congruence. done.
  - destruct (decide (Screenshot.id z = b)); [done|]. by rewrite IH.
Qed.

(** X9.  [markFailed] and [markSkipped] calls on two different ids can be
    made in either order: the task list the manager ends with is the same
    (whether or not the session has the ids). *)
Theorem refusals_commute w md a b c1 c2 :
  session w = Some md →
  a ≠ b →
  refuses a c1 →
  refuses b c2 →
  tasks_of (after [c1; c2] w) = tasks_of (after [c2; c1] w).
Proof.
  intros H Hab Hc1 Hc2. simpl.
  destruct (refusal_effect c1 _ Hc1) as (st1 & m1 & _ & E1).
  destruct (refusal_effect c2 _ Hc2) as (st2 & m2 & _ & E2).
  destruct (E1 w md H) as [Ha_none Ha_some].
  destruct (E2 w md H) as [Hb_none Hb_some].
  destruct (find_by_id a (tasks md)) as [[i si]|] eqn:Hfa;
    destruct (find_by_id b (tasks md)) as [[j sj]|] eqn:Hfb.
  - pose proof (find_by_id_lookup _ _ _ _ Hfa) as [Hi Hida].
    pose proof (find_by_id_lookup _ _ _ _ Hfb) as [Hj Hidb].
    assert (i ≠ j) as Hij by (intros ->; congruence).
    rewrite (Ha_some _ _ eq_refl), (Hb_some _ _ eq_refl). simpl.
    set (mdA := Metadata.set_updated_at (Some (clock w (reads w)))
                  (with_tasks (<[i := refused_entry st1 m1 si]> (tasks md)) md)).
    set (mdB := Metadata.set_updated_at (Some (clock w (reads w)))
                  (with_tasks (<[j := refused_entry st2 m2 sj]> (tasks md)) md)).
    destruct (E2 (stored 1 mdA w) mdA eq_refl) as [_ HbA].
    destruct (E1 (stored 1 mdB w) mdB eq_refl) as [_ HaB].
    rewrite (HbA j sj), (HaB i si).
    + unfold tasks_of, session, stored, mdA, mdB, tasks. simpl.
      by rewrite list_insert_insert_ne.
    + change (tasks mdB) with (<[j := refused_entry st2 m2 sj]> (tasks md)).
      rewrite (find_by_id_insert_other a _ j sj) by (done || congruence).
      exact Hfa.
    + change (tasks mdA) with (<[i := refused_entry st1 m1 si]> (tasks md)).
      rewrite (find_by_id_insert_other b _ i si) by (done || congruence).
      exact Hfb.
  - pose proof (find_by_id_lookup _ _ _ _ Hfa) as [Hi Hida].
    rewrite (Ha_some _ _ eq_refl), (Hb_none eq_refl). simpl.
    rewrite (Ha_some _ _ eq_refl).
    set (mdA := Metadata.set_updated_at (Some (clock w (reads w)))
                  (with_tasks (<[i := refused_entry st1 m1 si]> (tasks md)) md)).
    destruct (E2 (stored 1 mdA w) mdA eq_refl) as [HbA _].
    rewrite HbA; [done|].
    change (tasks mdA) with (<[i := refused_entry st1 m1 si]> (tasks md)).
    rewrite (find_by_id_insert_other b _ i si) by (done || congruence).
    exact Hfb.
  - pose proof (find_by_id_lookup _ _ _ _ Hfb) as [Hj Hidb].
    rewrite (Ha_none eq_refl), (Hb_some _ _ eq_refl). simpl.
    rewrite (Hb_some _ _ eq_refl).
    set (mdB := Metadata.set_updated_at (Some (clock w (reads w)))
                  (with_tasks (<[j := refused_entry st2 m2 sj]> (tasks md)) md)).
    destruct (E1 (stored 1 mdB w) mdB eq_refl) as [HaB _].
    rewrite HaB; [done|].
    change (tasks mdB) with (<[j := refused_entry st2 m2 sj]> (tasks md)).
    rewrite (find_by_id_insert_other a _ j sj) by (done || congruence).
    exact Hfa.
  - rewrite (Ha_none eq_refl), (Hb_none eq_refl). simpl.
    by rewrite (Ha_none eq_refl), (Hb_none eq_refl).
Qed.

Lemma refusals_commute_witness :
  tasks_of (after [MarkFailed "screenshot_01_homepage" "timeout";
                   MarkSkipped "screenshot_03_dashboard" "auth required"]
              (sample_world ticking three_pending)) =
  tasks_of (after [MarkSkipped "screenshot_03_dashboard" "auth required";
                   MarkFailed "screenshot_01_homepage" "timeout"]
              (sample_world ticking three_pending)).
Proof.
  apply (refusals_commute (sample_world ticking three_pending)
           (sample_metadata three_pending)
           "screenshot_01_homepage" "screenshot_03_dashboard");
    [reflexivity|discriminate|reflexivity|reflexivity].
Defined.

(** ** From [startCapture] to [finishCapture] *)

Lemma call_keeps_started c w md :
  session w = Some md →
  c ≠ StartCapture →
  ∃ md', session (call c w).2 = Some md' ∧
         Screenshots.capture_started_at (Metadata.screenshots md') =
         Screenshots.capture_started_at (Metadata.screenshots md).
Proof.
  intros H Hc. destruct c as [i p|i e|i r| |]; simpl; try done.
  - destruct (find_by_id i (tasks md)) as [[k s]|] eqn:Hf.
    + rewrite (markCaptured_found _ _ _ _ _ _ H Hf). by eexists.
    + destruct (mark_missing _ _ _ H Hf) as (-> & _). eauto.
  - destruct (find_by_id i (tasks md)) as [[k s]|] eqn:Hf.
    + destruct (mark_refused_found "failed" _ _ _ e _ _ H Hf) as [Hm _].
      rewrite (Hm eq_refl). by eexists.
    + destruct (mark_missing _ _ _ H Hf) as (_ & -> & _). eauto.
  - destruct (find_by_id i (tasks md)) as [[k s]|] eqn:Hf.
    + destruct (mark_refused_found "skipped" _ _ _ r _ _ H Hf) as [_ Hm].
      rewrite (Hm eq_refl). by eexists.
    + destruct (mark_missing _ _ _ H Hf) as (_ & _ & ->). eauto.
  - rewrite (finishCapture_loaded _ _ H). by eexists.
Qed.

Lemma calls_keep_started cs w md :
  session w = Some md →
  Forall (λ c, c ≠ StartCapture) cs →
  ∃ md', session (after cs w) = Some md' ∧
         Screenshots.capture_started_at (Metadata.screenshots md') =
         Screenshots.capture_started_at (Metadata.screenshots md).
Proof.
  intros H Hcs. revert w md H.
  induction Hcs as [|c cs Hc _ IH]; intros w md H; simpl; [eauto|].
  destruct (call_keeps_started c w md H Hc) as (md1 & H1 & Hs1).
  destruct (IH _ _ H1) as (md' & H' & Hs'). exists md'. split; [done|].
  congruence.
Qed.

(** X10.  A session started with [startCapture], worked on by any mark
    operations (and even intermediate [finishCapture] calls) and closed
    with [finishCapture] still carries the start time [startCapture] read
    from the clock; it ends with one of the three statuses [captured],
    [partial], [failed], never with [capturing], and with a summary. *)
Theorem started_session_finished cs w md :
  session w = Some md →
  Forall (λ c, c ≠ StartCapture) cs →
  ∃ md',
    session (after (StartCapture :: cs ++ [FinishCapture]) w) = Some md' ∧
    Screenshots.capture_started_at (Metadata.screenshots md') =
      Some (clock w (reads w)) ∧
    (Screenshots.status (Metadata.screenshots md') = Some "captured" ∨
     Screenshots.status (Metadata.screenshots md') = Some "partial" ∨
     Screenshots.status (Metadata.screenshots md') = Some "failed") ∧
    is_Some (Screenshots.summary (Metadata.screenshots md')).
Proof.
  intros H Hcs.
  assert (∃ md0,
            (startCapture w).2 = stored 2 md0 w ∧
            Screenshots.capture_started_at (Metadata.screenshots md0) =
              Some (clock w (reads w))) as (md0 & Hw0 & Hs0).
  { rewrite (startCapture_loaded _ _ H). by eexists. }
  destruct (calls_keep_started cs (stored 2 md0 w) md0 eq_refl Hcs)
    as (md1 & H1 & Hs1).
  unfold after in *. simpl. rewrite foldl_snoc, Hw0.
  pose proof (finishCapture_loaded _ _ H1) as Hfinish. simpl in Hfinish.
  simpl. rewrite Hfinish. eexists. split; [reflexivity|].
  simpl. split; [congruence|]. split; [|by eexists].
  repeat case_bool_decide; auto.
Qed.

Lemma started_session_finished_witness :
  ∃ md',
    session (after (StartCapture ::
                    [MarkCaptured "screenshot_01_homepage" None;
                     MarkFailed "screenshot_02_login" "timeout"]
                    ++ [FinishCapture])
               (sample_world ticking three_pending)) = Some md' ∧
    Screenshots.capture_started_at (Metadata.screenshots md') =
      Some (ticking 0) ∧
    (Screenshots.status (Metadata.screenshots md') = Some "captured" ∨
     Screenshots.status (Metadata.screenshots md') = Some "partial" ∨
     Screenshots.status (Metadata.screenshots md') = Some "failed") ∧
    is_Some (Screenshots.summary (Metadata.screenshots md')).
Proof.
  apply (started_session_finished _ (sample_world ticking three_pending)
           (sample_metadata three_pending) eq_refl).
  repeat (apply Forall_cons_2; [discriminate|]). apply Forall_nil_2.
Defined.

(** ** The task headings of the report *)






(** ** [updateMetadata] on the metadata file *)

Lemma apply_result_effect r md w :
  match find_by_id (Result.id r) (tasks md) with
  | None => apply_result r md w = (Normal md, w)
  | Some (i, s) =>
      apply_result r md w =
        (Normal (with_tasks
                   (<[i := updated_entry (clock w (reads w)) r s]> (tasks md))
                   md),
         mkWorld (this w) (fs w) (clock w) (S (reads w)))
  end.
Proof.
  unfold apply_result. fold (tasks md).
  destruct (find_by_id _ _) as [[i s]|] eqn:Hf; [|done].
  apply find_by_id_lookup in Hf as [Hi _].
  unfold mbind, Eff_bind, Date_now, mret, Eff_ret. simpl.
  rewrite (alter_found _ _ _ _ Hi). unfold updated_entry, with_tasks.
  by destruct (Js.truthy (Result.path r)), (Js.truthy (Result.error r)).
Qed.

Lemma updated_entry_only_grows now r s : only_grows s (updated_entry now r s).
Proof.
  unfold only_grows, updated_entry. simpl. split; [done|].
  split; intros Hs.
  - destruct (Js.truthy (Result.error r)) eqn:Ht; [|done].
    destruct (Result.error r); [by eexists|done].
  - destruct (Js.truthy (Result.path r)) eqn:Ht; [|done].
    destruct (Result.path r); [by eexists|done].
Qed.

(** The loop returns a metadata value that differs from the one it got in
    its task list only, task by task as [only_grows] allows. *)
Lemma apply_results_effect results md w :
  ∃ md' n,
    apply_results results md w =
      (Normal md', mkWorld (this w) (fs w) (clock w) (n + reads w)) ∧
    n ≤ length results ∧
    md' = with_tasks (tasks md') md ∧
    length (tasks md') = length (tasks md) ∧
    (∀ j s, tasks md !! j = Some s →
            ∃ s', tasks md' !! j = Some s' ∧ only_grows s s').
Proof.
  revert md w. induction results as [|r results IH]; intros md w.
  - exists md, 0. simpl. split; [by destruct w|]. split; [done|].
    split; [by destruct md as [? []]|]. split; [done|].
    intros j s Hj. exists s. by split_and!.
  - simpl. unfold mbind, Eff_bind.
    pose proof (apply_result_effect r md w) as Hr.
    destruct (find_by_id _ _) as [[i s]|] eqn:Hf; rewrite Hr.
    + apply find_by_id_lookup in Hf as [Hi _].
      set (md1 := with_tasks _ md).
      destruct (IH md1 (mkWorld (this w) (fs w) (clock w) (S (reads w))))
        as (md' & n & -> & Hn & Hmd' & Hlen & Hgrow).
      exists md', (S n). simpl. split; [do 2 f_equal; lia|].
      split; [lia|]. split; [by rewrite Hmd' at 1|].
      split; [by rewrite Hlen; unfold md1, tasks; simpl; rewrite length_insert|].
      intros j sj Hj.
      destruct (decide (j = i)) as [->|Hji].
      * simplify_eq.
        destruct (Hgrow i (updated_entry (clock w (reads w)) r s))
          as (s' & Hs' & Hdef & He & Hp).
        { unfold md1, tasks. simpl. apply list_lookup_insert_eq.
          by eapply lookup_lt_Some. }
        exists s'. split; [done|].
        destruct (updated_entry_only_grows (clock w (reads w)) r s)
          as (Hdef1 & He1 & Hp1).
        split_and!; [congruence|auto..].
      * apply Hgrow. unfold md1, tasks. simpl.
        by rewrite list_lookup_insert_ne.
    + destruct (IH md w) as (md' & n & -> & Hn & ?). exists md', n.
      split; [done|]. split; [lia|]. done.
Qed.

Lemma updateMetadata_no_file path results w :
  fs w !! path = None →
  updateMetadata path results w = (Normal (), w).
Proof.
  intros Hfile.
  unfold updateMetadata, try_catch, mbind, Eff_bind, existsSync.
  rewrite Hfile. by rewrite bool_decide_eq_false_2 by (by intros [? ?]).
Qed.

Lemma updateMetadata_file path results w md :
  fs w !! path = Some md →
  ∃ md' n,
    apply_results results md w =
      (Normal md', mkWorld (this w) (fs w) (clock w) (n + reads w)) ∧
    updateMetadata path results w =
      (Normal (),
       mkWorld (this w)
         (<[path :=
              Metadata.mk (Some (clock w (S (n + reads w))))
                (Screenshots.mk
                   (Some (if bool_decide
                               (count_captured results = length SCREENSHOTS)
                          then "captured" else "partial"))
                   (Screenshots.output_dir (Metadata.screenshots md))
                   (Screenshots.capture_started_at (Metadata.screenshots md))
                   (Some (clock w (n + reads w)))
                   (tasks md')
                   (Screenshots.summary (Metadata.screenshots md)))
                (Metadata.rest md)]> (fs w))
         (clock w) (S (S (n + reads w)))).
Proof.
  intros Hfile.
  destruct (apply_results_effect results md w)
    as (md' & n & Hrun & _ & Hmd' & _).
  exists md', n. split; [done|].
  unfold updateMetadata, try_catch, mbind, Eff_bind, existsSync, readJSON.
  rewrite Hfile. rewrite bool_decide_eq_true_2 by eauto. simpl.
  rewrite Hfile, Hrun. simpl. rewrite Hmd'. reflexivity.
Qed.

(** X12.  [updateMetadata] never throws and never touches the manager nor
    any file but the metadata file: when that file does not exist it does
    nothing at all (it does not create it), and when it exists it is still
    there afterwards. *)
Theorem updateMetadata_contained path results w :
  ∃ w',
    updateMetadata path results w = (Normal (), w') ∧
    this w' = this w ∧
    (∀ p, p ≠ path → fs w' !! p = fs w !! p) ∧
    (fs w !! path = None → w' = w) ∧
    (is_Some (fs w !! path) → is_Some (fs w' !! path)).
Proof.
  destruct (fs w !! path) as [md|] eqn:Hfile.
  - destruct (updateMetadata_file path results w md Hfile)
      as (md' & n & _ & ->).
    eexists. split; [reflexivity|]. simpl. split; [done|].
    split; [by intros p Hp; rewrite lookup_insert_ne|].
    split; [done|]. intros _. rewrite lookup_insert_eq. by eexists.
  - rewrite (updateMetadata_no_file _ _ _ Hfile). exists w.
    split_and!; first [done | by intros [? ?]].
Qed.

(** X13.  With an existing metadata file, [updateMetadata] keeps the number
    and the definition of every task and never removes an error message or
    an artifact path: a task that had one before still has one afterwards
    (so a captured result does not clear the error of an earlier failure). *)
Theorem updateMetadata_only_grows path results w md :
  fs w !! path = Some md →
  ∃ w' md',
    updateMetadata path results w = (Normal (), w') ∧
    fs w' !! path = Some md' ∧
    length (tasks md') = length (tasks md) ∧
    (∀ j s, tasks md !! j = Some s →
            ∃ s', tasks md' !! j = Some s' ∧ only_grows s s').
Proof.
  intros Hfile.
  destruct (updateMetadata_file path results w md Hfile)
    as (md1 & n & Hloop & ->).
  destruct (apply_results_effect results md w)
    as (md1' & n' & Hloop' & _ & _ & Hlen & Hgrow).
  rewrite Hloop in Hloop'. simplify_eq.
  do 2 eexists. split; [reflexivity|]. simpl.
  split; [apply lookup_insert_eq|]. by split.
Qed.

Lemma updateMetadata_only_grows_witness :
  ∃ w' md',
    updateMetadata ".manual-meta.json"
      [Result.mk "screenshot_01_homepage" "captured" (Some "a.png") None None]
      (sample_world frozen all_failed_tasks) = (Normal (), w') ∧
    fs w' !! ".manual-meta.json" = Some md' ∧
    length (tasks md') = length (tasks (sample_metadata all_failed_tasks)) ∧
    (∀ j s, tasks (sample_metadata all_failed_tasks) !! j = Some s →
            ∃ s', tasks md' !! j = Some s' ∧ only_grows s s').
Proof.
  apply (updateMetadata_only_grows ".manual-meta.json" _
           (sample_world frozen all_failed_tasks)
           (sample_metadata all_failed_tasks)).
  by vm_compute.
Defined.

(** What the loop does when the results have pairwise different ids: a task
    named by a result gets that result's entry, and a task named by no
    result stays. *)
Lemma apply_results_distinct results :
  NoDup (Result.id <$> results) →
  ∀ md w md' w',
    apply_results results md w = (Normal md', w') →
    (∀ r i s,
       r ∈ results →
       find_by_id (Result.id r) (tasks md) = Some (i, s) →
       ∃ now, tasks md' !! i = Some (updated_entry now r s)) ∧
    (∀ j s,
       tasks md !! j = Some s →
       (∀ r s0, r ∈ results →
                find_by_id (Result.id r) (tasks md) ≠ Some (j, s0)) →
       tasks md' !! j = Some s).
Proof.
  induction results as [|r0 results IH]; intros Hnodup md w md' w' Hrun.
  - injection Hrun as <- <-. split; [|auto].
    by intros r i s ?%elem_of_nil.
  - rewrite fmap_cons in Hnodup. apply NoDup_cons in Hnodup as [Hr0 Hnodup].
    assert (∀ r, r ∈ results → Result.id r ≠ Result.id r0) as Hne.
    { intros r Hr Heq. apply Hr0. rewrite <- Heq.
      apply list_elem_of_fmap. eauto. }
    simpl in Hrun. unfold mbind, Eff_bind in Hrun.
    pose proof (apply_result_effect r0 md w) as Hr.
    destruct (find_by_id (Result.id r0) (tasks md)) as [[k sk]|] eqn:Hf;
      rewrite Hr in Hrun.
    + pose proof (find_by_id_lookup _ _ _ _ Hf) as [Hk Hidk].
      set (e := updated_entry (clock w (reads w)) r0 sk) in *.
      set (md1 := with_tasks (<[k := e]> (tasks md)) md) in *.
      destruct (IH Hnodup _ _ _ _ Hrun) as [IH1 IH2].
      assert (∀ r, r ∈ results →
                find_by_id (Result.id r) (tasks md1) =
                find_by_id (Result.id r) (tasks md)) as Hsame.
      { intros r Hin.
        change (tasks md1) with (<[k := e]> (tasks md)).
        apply (find_by_id_insert_other _ _ _ sk); [done|done|].
        rewrite Hidk. intros Heq. by apply (Hne r Hin). }
      assert (tasks md1 !! k = Some e) as Hk1.
      { change (tasks md1) with (<[k := e]> (tasks md)).
        apply list_lookup_insert_eq. by eapply lookup_lt_Some. }
      split.
      * intros r i s [->|Hin]%elem_of_cons Hfr.
        -- simplify_eq. exists (clock w (reads w)). apply IH2; [done|].
           intros r s0 Hin Hfr. rewrite (Hsame r Hin) in Hfr.
           apply find_by_id_lookup in Hfr as [Hk' Hid']. simplify_eq.
           apply (Hne r Hin). congruence.
        -- apply IH1; [done|]. by rewrite (Hsame r Hin).
      * intros j s Hj Hnone.
        assert (j ≠ k) as Hjk.
        { intros ->. apply (Hnone r0 sk); [by left|done]. }
        apply IH2.
        -- change (tasks md1) with (<[k := e]> (tasks md)).
           by rewrite list_lookup_insert_ne.
        -- intros r s0 Hin. rewrite (Hsame r Hin). apply Hnone. by right.
    + destruct (IH Hnodup _ _ _ _ Hrun) as [IH1 IH2]. split.
      * intros r i s [->|Hin]%elem_of_cons Hfr; [congruence|]. by apply IH1.
      * intros j s Hj Hnone. apply IH2; [done|].
        intros r s0 Hin. apply Hnone. by right.
Qed.

(** X14.  With an existing metadata file and results of pairwise different
    ids (as [captureAll] produces), [updateMetadata] leaves, for every
    result whose id names a task, the first task with that id with the
    status of the result, a timestamp (also for a failed or skipped result),
    and the result's path and error when it has them; every task whose
    place no result names is left exactly as it was, and a result whose id
    names no task is passed over without an error. *)
Theorem updateMetadata_statuses path results w md :
  fs w !! path = Some md →
  NoDup (Result.id <$> results) →
  ∃ w' md',
    updateMetadata path results w = (Normal (), w') ∧
    fs w' !! path = Some md' ∧
    (∀ r i s,
       r ∈ results →
       find_by_id (Result.id r) (tasks md) = Some (i, s) →
       ∃ s',
         tasks md' !! i = Some s' ∧
         Screenshot.status s' = Some (Result.status r) ∧
         is_Some (Screenshot.captured_at s') ∧
         (Js.truthy (Result.path r) = true →
          Screenshot.file_path s' = Result.path r) ∧
         (Js.truthy (Result.error r) = true →
          Screenshot.error s' = Result.error r)) ∧
    (∀ j s,
       tasks md !! j = Some s →
       (∀ r s0, r ∈ results →
                find_by_id (Result.id r) (tasks md) ≠ Some (j, s0)) →
       tasks md' !! j = Some s).
Proof.
  intros Hfile Hnodup.
  destruct (updateMetadata_file path results w md Hfile)
    as (md1 & n & Hloop & ->).
  destruct (apply_results_distinct results Hnodup _ _ _ _ Hloop)
    as [Hnamed Hrest].
  do 2 eexists. split; [reflexivity|]. simpl.
  split; [apply lookup_insert_eq|].
  unfold tasks at 1 3. simpl. split; [|done].
  intros r i s Hin Hf. destruct (Hnamed r i s Hin Hf) as [now Hi].
  eexists. split; [exact Hi|]. unfold updated_entry. simpl.
  split; [done|]. split; [by eexists|]. by split; intros ->.
Qed.

Lemma updateMetadata_statuses_witness :
  ∃ w' md',
    updateMetadata ".manual-meta.json" all_failed_results
      (sample_world frozen all_failed_tasks) = (Normal (), w') ∧
    fs w' !! ".manual-meta.json" = Some md' ∧
    ∃ s',
      tasks md' !! 4 = Some s' ∧
      Screenshot.status s' = Some "failed" ∧
      is_Some (Screenshot.captured_at s').
Proof.
  destruct (updateMetadata_statuses ".manual-meta.json" all_failed_results
              (sample_world frozen all_failed_tasks)
              (sample_metadata all_failed_tasks))
    as (w' & md' & Hrun & Hfile & Hnamed & _).
  - by vm_compute.
  - vm_compute. repeat (apply NoDup_cons_2; [by vm_compute; intros H; repeat (apply elem_of_cons in H as [H|H]; [discriminate|]); by apply elem_of_nil in H|]). apply NoDup_nil_2.
  - exists w', md'. split; [done|]. split; [done|].
    eassert (find_by_id "screenshot_05_admin_dashboard"
               (tasks (sample_metadata all_failed_tasks)) = Some (4, _)) as Hf
      by (vm_compute; reflexivity).
    destruct (Hnamed (Result.mk "screenshot_05_admin_dashboard" "failed" None
                        (Some "net::ERR_CONNECTION_REFUSED") None) _ _
                ltac:(vm_compute; apply list_elem_of_In; vm_compute; auto 10)
                Hf)
      as (s' & Hs' & Hst & Hts & _).
    eauto.
Defined.

(** ** [capture], [captureAll] and [printSummary] *)

(** One call of [capture] pushes exactly one result, for the screenshot it
    was called with and of one of the three shapes; it never logs the
    manager out, and with authentication off it never logs it in. *)
Lemma capture_pushes cfg path_join browser screenshot c :
  ∃ r,
    ScreenshotCapture.results (capture cfg path_join browser screenshot c) =
      ScreenshotCapture.results c ++ [r] ∧
    Result.id r = Shot.id screenshot ∧
    result_well_formed r ∧
    (ScreenshotCapture.isAuthenticated c = true →
     ScreenshotCapture.isAuthenticated
       (capture cfg path_join browser screenshot c) = true) ∧
    (CONFIG.authMode cfg = false →
     ScreenshotCapture.isAuthenticated c = false →
     ScreenshotCapture.isAuthenticated
       (capture cfg path_join browser screenshot c) = false ∧
     r = unauthenticated_result cfg path_join browser screenshot).
Proof.
  unfold capture, unauthenticated_result, result_well_formed.
  destruct c as [authenticated rs], cfg as [mp od am],
    browser as [athrows cthrows], screenshot as [id url auth].
  destruct auth, authenticated, am, athrows, cthrows; simpl;
    eexists; (split; [reflexivity|]); simpl;
    (split_and!; [done|eauto 10|done|]); by intros.
Qed.

Lemma capture_each_results cfg path_join browser k shots c :
  ∃ rs,
    ScreenshotCapture.results (capture_each cfg path_join browser k shots c) =
      ScreenshotCapture.results c ++ rs ∧
    Result.id <$> rs = Shot.id <$> shots ∧
    Forall result_well_formed rs ∧
    (CONFIG.authMode cfg = false →
     ScreenshotCapture.isAuthenticated c = false →
     rs = imap (λ n shot, unauthenticated_result cfg path_join
                            (browser (k + n)) shot) shots).
Proof.
  revert k c. induction shots as [|shot shots IH]; intros k c; simpl.
  - exists []. by rewrite app_nil_r.
  - destruct (capture_pushes cfg path_join (browser k) shot c)
      as (r & Hr & Hid & Hwf & _ & Hoff).
    destruct (IH (S k) (capture cfg path_join (browser k) shot c))
      as (rs & Hrs & Hids & Hwfs & Hoffs).
    exists (r :: rs). rewrite Hrs, Hr, <- app_assoc. split; [done|].
    split; [by rewrite fmap_cons, Hid, Hids|]. split; [by constructor|].
    intros Ham Hc. destruct (Hoff Ham Hc) as [Hc' ->].
    rewrite (Hoffs Ham Hc'). rewrite Nat.add_0_r. f_equal.
    apply imap_ext. intros n x _. simpl. f_equal. f_equal. lia.
Qed.

(** X15.  Whatever the browser does and whether authentication is on or
    off, [captureAll] returns exactly one result per entry of
    [SCREENSHOTS], in the same order and with the same ids (so the ids are
    pairwise different); every result is captured with a path, failed with
    an error message, or skipped with the reason [auth required], and
    carries nothing else. *)
Theorem captureAll_one_result_each cfg path_join browser :
  let results :=
    ScreenshotCapture.results (captureAll cfg path_join browser) in
  Result.id <$> results = Shot.id <$> SCREENSHOTS ∧
  length results = length SCREENSHOTS ∧
  NoDup (Result.id <$> results) ∧
  Forall result_well_formed results.
Proof.
  unfold captureAll.
  destruct (capture_each_results cfg path_join browser 0 SCREENSHOTS
              (ScreenshotCapture.mk false []))
    as (rs & -> & Hids & Hwf & _).
  simpl. split; [done|].
  split; [by rewrite <- (length_fmap Result.id), Hids|].
  split; [|done]. rewrite Hids. vm_compute.
  repeat (apply NoDup_cons_2;
          [intros Hin; repeat (apply elem_of_cons in Hin as [Hin|Hin];
                               [discriminate|]);
           by apply elem_of_nil in Hin|]).
  apply NoDup_nil_2.
Qed.

Lemma summary_counts (results : list Result.t) :
  Forall result_well_formed results →
  length (filter (λ r, Result.status r = "captured") results) +
  length (filter (λ r, Result.status r = "failed") results) +
  length (filter (λ r, Result.status r = "skipped") results)
  = length results.
Proof.
  induction 1 as [|r rs Hr _ IH]; [done|].
  rewrite !filter_cons.
  destruct Hr as [(Hs & _)|[(Hs & _)|(Hs & _)]]; rewrite Hs; simpl; lia.
Qed.

(** X16.  The three numbers [printSummary] prints after [captureAll] add up
    to the number of entries of [SCREENSHOTS]: every screenshot is counted
    once, as captured, failed or skipped. *)
Theorem printSummary_adds_up cfg path_join browser :
  let '(captured, failed, skipped) :=
    printSummary (ScreenshotCapture.results (captureAll cfg path_join browser))
  in captured + failed + skipped = length SCREENSHOTS.
Proof.
  unfold captureAll.
  destruct (capture_each_results cfg path_join browser 0 SCREENSHOTS
              (ScreenshotCapture.mk false []))
    as (rs & -> & Hids & Hwf & _).
  simpl. unfold printSummary. rewrite summary_counts by done.
  by rewrite <- (length_fmap Result.id), Hids.
Qed.

(** X17.  With authentication off ([--auth] not given) the browser is never
    asked to authenticate: the result for an entry that needs
    authentication is [skipped] with the reason [auth required], whatever
    the browser does, and the result for any other entry is [captured] with
    its path, or [failed] with the message of the exception the browser
    raised. *)
Theorem captureAll_without_auth cfg path_join browser :
  CONFIG.authMode cfg = false →
  ScreenshotCapture.results (captureAll cfg path_join browser) =
  imap (λ k screenshot,
          unauthenticated_result cfg path_join (browser k) screenshot)
    SCREENSHOTS.
Proof.
  intros Ham. unfold captureAll.
  destruct (capture_each_results cfg path_join browser 0 SCREENSHOTS
              (ScreenshotCapture.mk false []))
    as (rs & -> & _ & _ & Hoff).
  by rewrite (Hoff Ham eq_refl).
Qed.

Lemma captureAll_without_auth_witness :
  Result.status <$>
    ScreenshotCapture.results
      (captureAll (CONFIG.mk ".manual-meta.json" "screenshots" false)
         (λ d f, d +:+ "/" +:+ f)
         (λ k, Browser.mk (Some "never asked")
                 (if bool_decide (k = 1) then Some "timeout" else None)))
  = ["captured"; "failed"; "captured"; "captured";
     "skipped"; "skipped"; "skipped"].
Proof.
  rewrite (captureAll_without_auth
             (CONFIG.mk ".manual-meta.json" "screenshots" false)
             (λ d f, d +:+ "/" +:+ f)
             (λ k, Browser.mk (Some "never asked")
                     (if bool_decide (k = 1) then Some "timeout" else None))
             eq_refl).
  reflexivity.
Defined.

Lemma capture_captured cfg path_join browser screenshot c :
  ∃ r,
    ScreenshotCapture.results (capture cfg path_join browser screenshot c) =
      ScreenshotCapture.results c ++ [r] ∧
    (Result.status r = "captured" ↔
       Browser.capture_throws browser = None ∧
       (Shot.auth screenshot && negb (ScreenshotCapture.isAuthenticated c)
          = true →
        CONFIG.authMode cfg = true ∧
        Browser.authenticate_throws browser = None)) ∧
    (Result.status r = "captured" →
     ScreenshotCapture.isAuthenticated
       (capture cfg path_join browser screenshot c) =
     ScreenshotCapture.isAuthenticated c || Shot.auth screenshot).
Proof.
  unfold capture.
  destruct c as [authenticated rs], cfg as [mp od am],
    browser as [athrows cthrows], screenshot as [id url auth].
  destruct auth, authenticated, am, athrows, cthrows; simpl;
    eexists; (split; [reflexivity|]); simpl;
    (split; [split; [try discriminate; by intros|]|try discriminate; done]);
    try (by intros [? ?]);
    try (intros [_ Hauth]; by destruct (Hauth eq_refl)).
Qed.

Lemma capture_each_all_captured cfg path_join browser k shots c :
  ∃ rs,
    ScreenshotCapture.results (capture_each cfg path_join browser k shots c) =
      ScreenshotCapture.results c ++ rs ∧
    length rs = length shots ∧
    (Forall (λ r, Result.status r = "captured") rs ↔
     lets_through (CONFIG.authMode cfg) browser k shots
       (ScreenshotCapture.isAuthenticated c)).
Proof.
  revert k c. induction shots as [|shot shots IH]; intros k c; simpl.
  - exists []. by rewrite app_nil_r.
  - destruct (capture_captured cfg path_join (browser k) shot c)
      as (r & Hr & Hcaptured & Hauth).
    destruct (IH (S k) (capture cfg path_join (browser k) shot c))
      as (rs & Hrs & Hlen & Hall).
    exists (r :: rs). rewrite Hrs, Hr, <- app_assoc.
    split; [done|]. split; [by simpl; rewrite Hlen|].
    rewrite Forall_cons. split.
    + intros [Hc Hrest]. rewrite <- (Hauth Hc).
      apply Hcaptured in Hc as [? ?]. split_and!; [done|done|by apply Hall].
    + intros (Hcap & Hau & Hrest).
      assert (Result.status r = "captured") as Hc by (by apply Hcaptured).
      split; [done|]. apply Hall. by rewrite (Hauth Hc).
Qed.

Lemma filter_all {A : Type} (P : A → Prop) `{∀ x, Decision (P x)}
  (l : list A) :
  length (filter P l) = length l ↔ Forall P l.
Proof.
  induction l as [|x l IH]; [by split|].
  rewrite filter_cons, Forall_cons. pose proof (length_filter P l).
  destruct (decide (P x)); simpl.
  - rewrite <- IH. split; [intros; split; [done|lia]|intros [_ ?]; lia].
  - split; [lia|by intros [? _]].
Qed.

(** X18.  With an existing metadata file, a run of [puppeteer_capture.js]
    writes the session status [captured] exactly when authentication is on,
    no navigation, action or screenshot of the seven calls raises an
    exception, and the authentication started for the first screenshot that
    needs it (the fifth) raises none; in every other case, in particular
    whenever [--auth] is not given, it writes [partial]. *)
Theorem puppeteer_session_status cfg path_join browser w md :
  fs w !! CONFIG.metadataPath cfg = Some md →
  let status :=
    file_status (CONFIG.metadataPath cfg)
      (puppeteer_main cfg path_join browser w).2 in
  (status = Some "captured" ↔
     CONFIG.authMode cfg = true ∧
     (∀ k, k < 7 → Browser.capture_throws (browser k) = None) ∧
     Browser.authenticate_throws (browser 4) = None) ∧
  (status = Some "captured" ∨ status = Some "partial").
Proof.
  intros Hfile status.
  assert (status =
          Some (if bool_decide
                     (count_captured
                        (ScreenshotCapture.results
                           (captureAll cfg path_join browser))
                      = length SCREENSHOTS)
                then "captured" else "partial")) as ->.
  { unfold status. rewrite <- (updateMetadata_status _ _ _ _ Hfile).
    unfold puppeteer_main, mbind, Eff_bind.
    by destruct (updateMetadata _ _ w) as [[[]|?] ?]. }
  split; [|by case_bool_decide; auto].
  unfold captureAll.
  destruct (capture_each_all_captured cfg path_join browser 0 SCREENSHOTS
              (ScreenshotCapture.mk false []))
    as (rs & Hrs & Hlen & Hall).
  rewrite Hrs. simpl in Hlen |- *.
  assert (count_captured rs = 7 ↔
          lets_through (CONFIG.authMode cfg) browser 0 SCREENSHOTS false)
    as Hiff.
  { unfold count_captured. rewrite <- Hlen. by rewrite filter_all. }
  case_bool_decide as Hok; [apply Hiff in Hok|rewrite Hiff in Hok].
  - split; [intros _|done]. simpl in Hok.
    destruct Hok as (H0 & _ & H1 & _ & H2 & _ & H3 & _ & H4 & Hauth & H5 & _
                     & H6 & _).
    destruct (Hauth eq_refl) as [? ?]. split_and!; [done| |done].
    intros k Hk. by do 7 (destruct k as [|k]; [done|]); lia.
  - split; [discriminate|]. intros (Ham & Hall' & Hauth). destruct Hok.
    simpl. pose proof (Hall' 0 ltac:(lia)). pose proof (Hall' 1 ltac:(lia)).
    pose proof (Hall' 2 ltac:(lia)). pose proof (Hall' 3 ltac:(lia)).
    pose proof (Hall' 4 ltac:(lia)). pose proof (Hall' 5 ltac:(lia)).
    pose proof (Hall' 6 ltac:(lia)).
    split_and!; try done; discriminate.
Qed.

Lemma puppeteer_session_status_witness :
  file_status ".manual-meta.json"
    (puppeteer_main (CONFIG.mk ".manual-meta.json" "screenshots" true)
       (λ d f, d +:+ "/" +:+ f) (λ k, Browser.mk None None)
       (sample_world frozen all_failed_tasks)).2
  = Some "captured".
Proof.
  apply (puppeteer_session_status
           (CONFIG.mk ".manual-meta.json" "screenshots" true)
           (λ d f, d +:+ "/" +:+ f) (λ k, Browser.mk None None)
           (sample_world frozen all_failed_tasks)
           (sample_metadata all_failed_tasks)).
  - by vm_compute.
  - by split_and!.
Defined.

(** ** The command line *)

Lemma lift_normal {A : Type} (m : Eff A) st a w' :
  m (Cli.world st) = (Normal a, w') →
  Cli.lift m st = (Cli.Done a, Cli.mkState w' (Cli.console st)).
Proof. intros Hm. unfold Cli.lift. by rewrite Hm. Qed.

Lemma lift_throw {A : Type} (m : Eff A) st e w' :
  m (Cli.world st) = (Throw e, w') →
  Cli.lift m st = (Cli.Thrown e, Cli.mkState w' (Cli.console st)).
Proof. intros Hm. unfold Cli.lift. by rewrite Hm. Qed.

Lemma for_each_write {A : Type} (l : list A) (f : A → Output) st :
  Cli.for_each l (λ x, Cli.write (f x)) st =
  (Cli.Done (), Cli.mkState (Cli.world st) (Cli.console st ++ (f <$> l))).
Proof.
  revert st. induction l as [|x l IH]; intros st; simpl.
  - rewrite app_nil_r. by destruct st.
  - unfold mbind, Cli.M_bind, Cli.write at 1. rewrite IH. simpl.
    by rewrite <- app_assoc.
Qed.

Lemma generateReport_loaded w md :
  session w = Some md →
  ∃ report,
    generateReport w =
      (Normal report, mkWorld (this w) (fs w) (clock w) (S (reads w))).
Proof.
  intros H. destruct (report_lines_loaded w md H) as (p & _ & Hrun).
  rewrite generateReport_lines, Hrun. by eexists.
Qed.

(** The script, once the metadata file is known to exist: the [switch] runs
    on the loaded manager and whatever it throws ends in the [catch]
    clause. *)
Lemma run_loaded args w md :
  fs w !! cli_path args = Some md →
  Cli.run args w =
    match Cli.dispatch args (Cli.mkState (cli_loaded args md w) []) with
    | (Cli.Thrown e, st') =>
        (Cli.Exited 1,
         Cli.mkState (Cli.world st')
           (Cli.console st' ++ [LogError ("Error: " +:+ e)]))
    | r => r
    end.
Proof.
  intros Hfile. unfold Cli.run, Cli.main.
  unfold mbind at 1, Cli.M_bind at 1, Cli.lift at 1. simpl.
  unfold Cli.try_catch. unfold mbind at 1, Cli.M_bind at 1, Cli.lift at 1.
  simpl. fold (cli_path args).
  destruct (load_result (cli_manager args w)) as [_ Hload].
  pose proof (Hload md Hfile) as Hrun. unfold cli_manager in Hrun.
  simpl in Hrun. rewrite Hrun. fold (cli_loaded args md w).
  by destruct (Cli.dispatch args _) as [[[]|e|n] st'].
Qed.

Lemma run_missing args w :
  fs w !! cli_path args = None →
  Cli.run args w =
    (Cli.Exited 1,
     Cli.mkState (cli_manager args w)
       [LogError ("Error: Metadata file not found: " +:+ cli_path args)]).
Proof.
  intros Hfile. unfold Cli.run, Cli.main.
  unfold mbind at 1, Cli.M_bind at 1, Cli.lift at 1. simpl.
  unfold Cli.try_catch. unfold mbind at 1, Cli.M_bind at 1, Cli.lift at 1.
  simpl. fold (cli_path args).
  destruct (load_result (cli_manager args w)) as [Hload _].
  unfold cli_manager in Hload. simpl in Hload. by rewrite (Hload Hfile).
Qed.

(** X19.  When the metadata file [args[1] || '.manual-meta.json'] does not
    exist, the script prints [Error: Metadata file not found: <path>] on
    the error stream and exits with code 1 whatever the command is, even
    for the help text, and writes no file. *)
Theorem cli_missing_file args w :
  fs w !! cli_path args = None →
  ∃ st',
    Cli.run args w = (Cli.Exited 1, st') ∧
    Cli.console st' =
      [LogError ("Error: Metadata file not found: " +:+ cli_path args)] ∧
    fs (Cli.world st') = fs w ∧
    session (Cli.world st') = None.
Proof. intros Hfile. rewrite (run_missing _ _ Hfile). by eexists. Qed.

Lemma cli_missing_file_witness :
  ∃ st',
    Cli.run ["help"; "nowhere.json"] (sample_world frozen three_pending)
      = (Cli.Exited 1, st') ∧
    Cli.console st' =
      [LogError "Error: Metadata file not found: nowhere.json"] ∧
    fs (Cli.world st') = fs (sample_world frozen three_pending) ∧
    session (Cli.world st') = None.
Proof.
  apply (cli_missing_file ["help"; "nowhere.json"]
           (sample_world frozen three_pending)).
  by vm_compute.
Defined.

Lemma dispatch_read_only args st md :
  session (Cli.world st) = Some md →
  ¬ writing_command args →
  ∃ out n,
    Cli.dispatch args st =
      (Cli.Done (),
       Cli.mkState
         (mkWorld (this (Cli.world st)) (fs (Cli.world st))
            (clock (Cli.world st)) (n + reads (Cli.world st)))
         (Cli.console st ++ out)).
Proof.
  intros H Hcmd. destruct st as [w out0]. simpl in *.
  unfold writing_command, marking_command in Hcmd.
  destruct (getList_filter_loaded w md H) as (Hpending & _).
  pose proof (getProgress_loaded w md H) as Hprogress. simpl in Hprogress.
  destruct (generateReport_loaded w md H) as (report & Hreport).
  unfold Cli.dispatch. repeat case_bool_decide; try (exfalso; tauto).
  - unfold mbind, Cli.M_bind, Cli.write at 1. simpl.
    erewrite lift_normal by exact Hpending. rewrite for_each_write. simpl.
    exists (Log "Pending screenshots:"
            :: ((λ s, Log ("  - " +:+ Screenshot.id s +:+ ": "
                           +:+ Screenshot.page s))
                <$> filter is_pending (tasks md))), 0.
    destruct w. simpl. by rewrite <- app_assoc.
  - unfold mbind, Cli.M_bind.
    erewrite lift_normal by exact Hprogress. unfold Cli.write. simpl.
    eexists [_; _], 0. destruct w. simpl. by rewrite <- app_assoc.
  - unfold mbind, Cli.M_bind.
    erewrite lift_normal by exact Hreport. unfold Cli.write. simpl.
    by eexists [_], 1.
  - rewrite for_each_write. simpl. eexists _, 0. by destruct w.
Qed.

Lemma bind_done {A B : Type} (m : Cli.M A) (k : A → Cli.M B) st a st' :
  m st = (Cli.Done a, st') → (m ≫= k) st = k a st'.
Proof. intros Hm. unfold mbind, Cli.M_bind. by rewrite Hm. Qed.

Lemma dispatch_session args st md :
  session (Cli.world st) = Some md →
  args !! 0 = Some "start" ∨ args !! 0 = Some "finish" →
  ∃ md' out,
    Cli.dispatch args st =
      (Cli.Done (),
       Cli.mkState (stored 2 md' (Cli.world st)) (Cli.console st ++ out)) ∧
    tasks md' = tasks md.
Proof.
  intros H Hcmd. destruct st as [w out0]. simpl in *.
  unfold Cli.dispatch.
  destruct Hcmd as [-> | ->]; repeat case_bool_decide; simplify_eq.
  - erewrite bind_done
      by (apply lift_normal; by apply startCapture_loaded).
    do 2 eexists. split; [reflexivity|done].
  - pose proof (finishCapture_loaded w md H) as Hfinish. simpl in Hfinish.
    erewrite bind_done by (apply lift_normal; exact Hfinish).
    erewrite bind_done by reflexivity.
    erewrite bind_done
      by (apply lift_normal; by apply getProgress_loaded).
    do 2 eexists.
    split; [unfold Cli.write; simpl; rewrite <- app_assoc; reflexivity|].
    reflexivity.
Qed.

Lemma dispatch_mark args st md :
  session (Cli.world st) = Some md →
  marking_command args →
  let w := Cli.world st in
  let screenshotId := Js.template (args !! 2) in
  (Js.truthy (args !! 2) = false →
   ∃ line,
     Cli.dispatch args st =
       (Cli.Exited 1, Cli.mkState w (Cli.console st ++ [LogError line]))) ∧
  (Js.truthy (args !! 2) = true →
   find_by_id screenshotId (tasks md) = None →
   Cli.dispatch args st =
     (Cli.Thrown ("Screenshot not found: " +:+ screenshotId), st)) ∧
  (Js.truthy (args !! 2) = true →
   ∀ i s,
     find_by_id screenshotId (tasks md) = Some (i, s) →
     ∃ e n t verb,
       Cli.dispatch args st =
         (Cli.Done (),
          Cli.mkState
            (stored n
               (Metadata.set_updated_at (Some t)
                  (with_tasks (<[i := e]> (tasks md)) md))
               w)
            (Cli.console st
             ++ [Log ("Marked " +:+ screenshotId +:+ " as " +:+ verb)])) ∧
       ((args !! 0 = Some "mark-captured" ∧ verb = "captured" ∧
         e = captured_entry (clock w (reads w))
               (default_path w screenshotId) s) ∨
        (args !! 0 = Some "mark-failed" ∧ verb = "failed" ∧
         e = refused_entry "failed" (Js.or (args !! 3) "Unknown error") s))).
Proof.
  intros H Hcmd w screenshotId. destruct st as [w0 out0]. simpl in *.
  subst w. unfold Cli.dispatch.
  destruct Hcmd as [Hcmd|Hcmd]; rewrite Hcmd; repeat case_bool_decide;
    simplify_eq; fold screenshotId.
  - split_and!.
    + intros ->. simpl. by eexists.
    + intros -> Hf. simpl. unfold mbind, Cli.M_bind.
      destruct (mark_missing _ _ _ H Hf) as (Hm & _).
      by erewrite lift_throw by apply Hm.
    + intros -> i s Hf. simpl. unfold mbind, Cli.M_bind.
      erewrite lift_normal by (by apply markCaptured_found).
      unfold Cli.write. simpl. do 4 eexists. split; [reflexivity|].
      left. by split_and!.
  - split_and!.
    + intros ->. simpl. by eexists.
    + intros -> Hf. simpl. unfold mbind, Cli.M_bind.
      destruct (mark_missing _ _ _ H Hf) as (_ & Hm & _).
      by erewrite lift_throw by apply Hm.
    + intros -> i s Hf. simpl. unfold mbind, Cli.M_bind.
      destruct (mark_refused_found "failed" _ _ _
                  (Js.or (args !! 3) "Unknown error") _ _ H Hf) as [Hm _].
      erewrite lift_normal by (by apply Hm).
      unfold Cli.write. simpl. do 4 eexists. split; [reflexivity|].
      right. by split_and!.
Qed.

(** X20.  With an existing metadata file, the commands [list], [progress]
    and [report], and every word that is no command (the help text),
    end normally, leave every file as it was and leave the loaded session
    as it was: only [start], [finish], [mark-captured] and [mark-failed]
    can write. *)
Theorem cli_read_only args w md :
  fs w !! cli_path args = Some md →
  ¬ writing_command args →
  ∃ st',
    Cli.run args w = (Cli.Done (), st') ∧
    fs (Cli.world st') = fs w ∧
    session (Cli.world st') = Some md.
Proof.
  intros Hfile Hcmd. rewrite (run_loaded _ _ _ Hfile).
  destruct (dispatch_read_only args (Cli.mkState (cli_loaded args md w) [])
              md eq_refl Hcmd) as (out & n & ->).
  by eexists.
Qed.

Lemma cli_read_only_witness :
  ∃ st',
    Cli.run ["report"] (sample_world ticking three_pending)
      = (Cli.Done (), st') ∧
    fs (Cli.world st') = fs (sample_world ticking three_pending) ∧
    session (Cli.world st') = Some (sample_metadata three_pending).
Proof.
  apply (cli_read_only ["report"] (sample_world ticking three_pending)
           (sample_metadata three_pending)).
  - by vm_compute.
  - unfold writing_command, marking_command. simpl.
    intros [?|[?|[?|?]]]; discriminate.
Defined.

(** X21.  [mark-captured <path> <id>] and [mark-failed <path> <id> [message]]
    on an existing metadata file that has the id end normally, print
    [Marked <id> as captured] or [Marked <id> as failed], and write the
    file with the first task of that id replaced: captured always at the
    default path [{output_dir || 'screenshots'}/{id}.png] (the command line
    has no way to give a path), or failed with the message given, which is
    [Unknown error] when none or an empty one is given. *)
Theorem cli_marks_task args w md screenshotId i s :
  fs w !! cli_path args = Some md →
  marking_command args →
  args !! 2 = Some screenshotId →
  screenshotId ≠ EmptyString →
  find_by_id screenshotId (tasks md) = Some (i, s) →
  ∃ st' md' e verb,
    Cli.run args w = (Cli.Done (), st') ∧
    Cli.console st' = [Log ("Marked " +:+ screenshotId +:+ " as " +:+ verb)] ∧
    fs (Cli.world st') !! cli_path args = Some md' ∧
    session (Cli.world st') = Some md' ∧
    tasks md' = <[i := e]> (tasks md) ∧
    ((args !! 0 = Some "mark-captured" ∧ verb = "captured" ∧
      e = captured_entry (clock w (reads w))
            (Js.or (Screenshots.output_dir (Metadata.screenshots md))
               "screenshots" +:+ "/" +:+ screenshotId +:+ ".png") s) ∨
     (args !! 0 = Some "mark-failed" ∧ verb = "failed" ∧
      e = refused_entry "failed" (Js.or (args !! 3) "Unknown error") s)).
Proof.
  intros Hfile Hcmd Hid Hne Hf. rewrite (run_loaded _ _ _ Hfile).
  destruct (dispatch_mark args (Cli.mkState (cli_loaded args md w) [])
              md eq_refl Hcmd) as (_ & _ & Hfound).
  rewrite Hid in Hfound. simpl in Hfound.
  destruct (Hfound ltac:(by rewrite bool_decide_eq_true_2) i s Hf)
    as (e & n & t & verb & -> & He).
  eexists _, _, e, verb. split; [reflexivity|]. simpl.
  split; [done|]. split; [apply lookup_insert_eq|]. split; [done|].
  split; [done|]. exact He.
Qed.

Lemma cli_marks_task_witness :
  ∃ st' md',
    Cli.run ["mark-failed"; ".manual-meta.json"; "screenshot_02_login"]
      (sample_world frozen three_pending) = (Cli.Done (), st') ∧
    Cli.console st' = [Log "Marked screenshot_02_login as failed"] ∧
    fs (Cli.world st') !! ".manual-meta.json" = Some md' ∧
    tasks md' !! 1 =
      Some (refused_entry "failed" "Unknown error"
              (entry "screenshot_02_login" (Some "pending"))).
Proof.
  assert (find_by_id "screenshot_02_login"
            (tasks (sample_metadata three_pending))
          = Some (1, entry "screenshot_02_login" (Some "pending"))) as Hf
    by (vm_compute; reflexivity).
  destruct (cli_marks_task
              ["mark-failed"; ".manual-meta.json"; "screenshot_02_login"]
              (sample_world frozen three_pending)
              (sample_metadata three_pending) "screenshot_02_login" _ _
              ltac:(by vm_compute) ltac:(by right) eq_refl
              ltac:(discriminate) Hf)
    as (st' & md' & e & verb & Hrun & Hout & Hfile & _ & Hl
        & [(Hc & _)|(_ & -> & ->)]); [discriminate Hc|].
  exists st', md'. split_and!; [done..|]. by rewrite Hl.
Defined.

(** X22.  [mark-captured] and [mark-failed] read the id from the third
    argument, the second being the metadata path: called with the id alone,
    as their usage line reads, or with an empty id, they exit with code 1
    and write no file, whether a metadata file exists or not. *)
Theorem cli_mark_without_id args w :
  marking_command args →
  Js.truthy (args !! 2) = false →
  ∃ st' line,
    Cli.run args w = (Cli.Exited 1, st') ∧
    Cli.console st' = [LogError line] ∧
    fs (Cli.world st') = fs w.
Proof.
  intros Hcmd Hid.
  destruct (fs w !! cli_path args) as [md|] eqn:Hfile.
  - rewrite (run_loaded _ _ _ Hfile).
    destruct (dispatch_mark args (Cli.mkState (cli_loaded args md w) [])
                md eq_refl Hcmd) as (Hnone & _).
    destruct (Hnone Hid) as [line ->]. by do 2 eexists.
  - rewrite (run_missing _ _ Hfile). by do 2 eexists.
Qed.

Lemma cli_mark_without_id_witness :
  ∃ st' line,
    Cli.run ["mark-captured"; "screenshot_02_login"]
      (sample_world frozen three_pending) = (Cli.Exited 1, st') ∧
    Cli.console st' = [LogError line] ∧
    fs (Cli.world st') = fs (sample_world frozen three_pending).
Proof.
  apply (cli_mark_without_id ["mark-captured"; "screenshot_02_login"]
           (sample_world frozen three_pending)); [by left|reflexivity].
Defined.

(** X23.  [mark-captured] and [mark-failed] with an id the metadata file
    does not have print [Error: Screenshot not found: <id>] on the error
    stream, exit with code 1 and leave the file as it was. *)
Theorem cli_unknown_id args w md screenshotId :
  fs w !! cli_path args = Some md →
  marking_command args →
  args !! 2 = Some screenshotId →
  screenshotId ≠ EmptyString →
  screenshotId ∉ Screenshot.id <$> tasks md →
  Cli.run args w =
    (Cli.Exited 1,
     Cli.mkState (cli_loaded args md w)
       [LogError ("Error: Screenshot not found: " +:+ screenshotId)]).
Proof.
  intros Hfile Hcmd Hid Hne Hf%find_by_id_None.
  rewrite (run_loaded _ _ _ Hfile).
  destruct (dispatch_mark args (Cli.mkState (cli_loaded args md w) [])
              md eq_refl Hcmd) as (_ & Hmissing & _).
  rewrite Hid in Hmissing. simpl in Hmissing.
  by rewrite (Hmissing ltac:(by rewrite bool_decide_eq_true_2) Hf).
Qed.

Lemma cli_unknown_id_witness :
  Cli.run ["mark-captured"; ".manual-meta.json"; "nope"]
    (sample_world frozen three_pending) =
    (Cli.Exited 1,
     Cli.mkState
       (cli_loaded ["mark-captured"; ".manual-meta.json"; "nope"]
          (sample_metadata three_pending) (sample_world frozen three_pending))
       [LogError "Error: Screenshot not found: nope"]).
Proof.
  apply (cli_unknown_id ["mark-captured"; ".manual-meta.json"; "nope"]
           (sample_world frozen three_pending)
           (sample_metadata three_pending) "nope");
    [by vm_compute|by left|reflexivity|discriminate|].
  apply find_by_id_None. by vm_compute.
Defined.

(** X24.  Whatever its arguments, the script on an existing metadata file
    ends normally or with exit code 1, never with an uncaught exception;
    it leaves every other file alone, and the metadata file afterwards has
    the same tasks with the same definitions, each with the status it had
    or with [captured] or [failed]: the command line cannot mark a task
    skipped or pending. *)
Theorem cli_steps args w md :
  fs w !! cli_path args = Some md →
  ∃ c st' md',
    Cli.run args w = (c, st') ∧
    (c = Cli.Done () ∨ c = Cli.Exited 1) ∧
    (∀ p, p ≠ cli_path args → fs (Cli.world st') !! p = fs w !! p) ∧
    fs (Cli.world st') !! cli_path args = Some md' ∧
    length (tasks md') = length (tasks md) ∧
    (∀ j s, tasks md !! j = Some s →
            ∃ s', tasks md' !! j = Some s' ∧ cli_step s s').
Proof.
  intros Hfile. rewrite (run_loaded _ _ _ Hfile).
  assert (∀ s, cli_step s s) as Hrefl by (by split; [|left]).
  destruct (decide (writing_command args)) as [[Hc|[Hc|Hc]]|Hc].
  - destruct (dispatch_session args (Cli.mkState (cli_loaded args md w) [])
                md eq_refl (or_introl Hc)) as (md' & out & -> & Hl).
    do 3 eexists. split; [reflexivity|]. split; [by left|]. simpl.
    split; [by intros p Hp; rewrite lookup_insert_ne|].
    split; [apply lookup_insert_eq|]. rewrite Hl. eauto.
  - destruct (dispatch_session args (Cli.mkState (cli_loaded args md w) [])
                md eq_refl (or_intror Hc)) as (md' & out & -> & Hl).
    do 3 eexists. split; [reflexivity|]. split; [by left|]. simpl.
    split; [by intros p Hp; rewrite lookup_insert_ne|].
    split; [apply lookup_insert_eq|]. rewrite Hl. eauto.
  - destruct (dispatch_mark args (Cli.mkState (cli_loaded args md w) [])
                md eq_refl Hc) as (Hnoid & Hmissing & Hfound).
    destruct (Js.truthy (args !! 2)) eqn:Hid.
    + destruct (find_by_id (Js.template (args !! 2)) (tasks md))
        as [[i s]|] eqn:Hf.
      * destruct (Hfound eq_refl i s eq_refl)
          as (e & n & t & verb & -> & He).
        pose proof (find_by_id_lookup _ _ _ _ Hf) as [Hi _].
        set (md1 := Metadata.set_updated_at (Some t)
                      (with_tasks (<[i := e]> (tasks md)) md)).
        exists (Cli.Done ()). eexists. exists md1.
        split; [reflexivity|]. split; [by left|]. simpl.
        split; [by intros p Hp; rewrite lookup_insert_ne|].
        split; [apply lookup_insert_eq|].
        change (tasks md1) with (<[i := e]> (tasks md)).
        split; [by rewrite length_insert|].
        intros j sj Hj. destruct (decide (j = i)) as [->|Hji].
        -- simplify_eq. exists e.
           rewrite list_lookup_insert_eq by (by eapply lookup_lt_Some).
           split; [done|].
           destruct He as [(_ & _ & ->)|(_ & _ & ->)]; split; simpl; auto.
        -- exists sj. by rewrite list_lookup_insert_ne.
      * rewrite (Hmissing eq_refl eq_refl).
        do 3 eexists. split; [reflexivity|]. split; [by right|]. simpl.
        eauto 10.
    + destruct (Hnoid eq_refl) as [line ->].
      do 3 eexists. split; [reflexivity|]. split; [by right|]. simpl.
      eauto 10.
  - destruct (dispatch_read_only args (Cli.mkState (cli_loaded args md w) [])
                md eq_refl Hc) as (out & n & ->).
    do 3 eexists. split; [reflexivity|]. split; [by left|]. simpl.
    eauto 10.
Qed.

Lemma cli_steps_witness :
  ∃ c st' md',
    Cli.run ["finish"] (sample_world frozen three_pending) = (c, st') ∧
    (c = Cli.Done () ∨ c = Cli.Exited 1) ∧
    fs (Cli.world st') !! ".manual-meta.json" = Some md' ∧
    length (tasks md') = 3.
Proof.
  destruct (cli_steps ["finish"] (sample_world frozen three_pending)
              (sample_metadata three_pending) ltac:(by vm_compute))
    as (c & st' & md' & Hrun & Hc & _ & Hfile & Hlen & _).
  exists c, st', md'. by split_and!.
Defined.
